(** * OSRDIO: a shallow embedding of the OSR NI PCIe-6509 digital I/O driver

    The development follows [src/OsrDio.h], [OsrDio_IOCTL.h] and
    [src/OsrDio.cpp].  The driver is straight-line code over three kinds of
    state: the device's memory-mapped registers, the device context
    ([OSRDIO_DEVICE_CONTEXT]) and the framework objects it talks to (the
    manual queue of pending requests, the DPC of the interrupt object, the
    requests it completes).  All three are threaded through a small
    state-and-fault monad; every register access and every framework call
    that is visible from outside is recorded, in order, in a trace. *)

From Stdlib Require Import ZArith List Bool Lia.
Import ListNotations.
Local Open Scope Z_scope.

(** ** Machine integers

    [ULONG] is the 32-bit unsigned integer of the Windows headers, carried
    by [Z]; the wrap-around of the operations the driver uses is written
    out. *)

Definition ULONG := Z.

Definition ULONG_MAX : ULONG := 0xFFFFFFFF.

Definition is_ULONG (x : Z) : Prop := 0 <= x <= ULONG_MAX.

Definition to_ULONG (x : Z) : ULONG := x mod 2 ^ 32.

(** The C operator [~] at type [ULONG]. *)
Definition ulong_not (x : ULONG) : ULONG := to_ULONG (Z.lnot x).

(** [constexpr ULONG BIT_NUMBER(int x) { return (ULONG)1 << x; }] *)
Definition BIT_NUMBER (x : Z) : ULONG := to_ULONG (Z.shiftl 1 x).

(** ** The register map ([DIO_REGISTERS], OsrDio.h) *)

(** The size of the device memory area on the NI PCIe-6509. *)
Definition DIO_BAR_SIZE : ULONG := 512 * 1024.

Inductive DIO_REGISTERS : Type :=
| CHInCh_Identification_Register
| Static_Digital_Input_Register
| Static_Digital_Output_Register
| DIO_Direction_Register
| DI_FilterRegister_Port0and1
| DI_FilterRegister_Port2and3
| ChangeDetectStatusRegister
| DI_ChangeIrqRE_Register
| DI_ChangeIrqFE_Register
| DI_ChangeDetectLatched_Register
| GlobalInterruptStatus_Register
| GlobalInterruptEnable_Register
| DI_Interrupt_Status_Register
| ChangeDetectIRQ_Register
| Interrupt_Mask_Register
| Interrupt_Status_Register
| Volatile_Interrupt_Status_Register
| IntForwarding_ControlStatus
| IntForwarding_DestinationReg
| Scrap_Register
| PCI_Subsystem_ID_Access_Register
| ScratchpadRegister
| Signature_Register
| Joint_Reset_Register
| TimeSincePowerUpRegister.

(** The offset the header's table declares for each register (the second
    argument of [REGDEF_ULONG]); the first member of the union is declared
    without the macro and sits at offset 0. *)
Definition declared_offset (r : DIO_REGISTERS) : Z :=
  match r with
  | CHInCh_Identification_Register => 0
  | Static_Digital_Input_Register => 0x20530
  | Static_Digital_Output_Register => 0x204B0
  | DIO_Direction_Register => 0x204B4
  | DI_FilterRegister_Port0and1 => 0x2054C
  | DI_FilterRegister_Port2and3 => 0x20550
  | ChangeDetectStatusRegister => 0x20540
  | DI_ChangeIrqRE_Register => 0x20540
  | DI_ChangeIrqFE_Register => 0x20544
  | DI_ChangeDetectLatched_Register => 0x20544
  | GlobalInterruptStatus_Register => 0x20070
  | GlobalInterruptEnable_Register => 0x20078
  | DI_Interrupt_Status_Register => 0x2007E
  | ChangeDetectIRQ_Register => 0x20554
  | Interrupt_Mask_Register => 0x0005C
  | Interrupt_Status_Register => 0x00060
  | Volatile_Interrupt_Status_Register => 0x00068
  | IntForwarding_ControlStatus => 0x22204
  | IntForwarding_DestinationReg => 0x22208
  | Scrap_Register => 0x00200
  | PCI_Subsystem_ID_Access_Register => 0x010AC
  | ScratchpadRegister => 0x20004
  | Signature_Register => 0x20060
  | Joint_Reset_Register => 0x20064
  | TimeSincePowerUpRegister => 0x20064
  end.

(** The alignment of a [ULONG] in a structure. *)
Definition alignof_ULONG : Z := 4.

(** [#define REGDEF_ULONG(_field_, _off_) struct { REGPAD(_off_); ULONG
    _field_; }]: the field follows [_off_] bytes of padding in a structure
    that is not packed, so it sits at [_off_] rounded up to the alignment
    of [ULONG]. *)
Definition REGDEF_ULONG (_off_ : Z) : Z :=
  (_off_ + (alignof_ULONG - 1)) / alignof_ULONG * alignof_ULONG.

(** Byte offset of each register from BAR 0 in [DIO_REGISTERS].  The
    structure is a union of padded fields, so two names may share an offset
    (one is the read side and the other the write side of the same
    address). *)
Definition reg_offset (r : DIO_REGISTERS) : Z :=
  REGDEF_ULONG (declared_offset r).

(** Bit definitions: Interrupt_Mask_Register *)
Definition Set_CPU_Int : ULONG := BIT_NUMBER 31.
Definition Clear_CPU_Int : ULONG := BIT_NUMBER 30.
Definition Set_STC3_Int : ULONG := BIT_NUMBER 11.
Definition Clear_STC3_Int : ULONG := BIT_NUMBER 10.

(** Bit definitions: GlobalInterruptEnable_Register *)
Definition WatchdogTimer_Interrupt_Disable : ULONG := BIT_NUMBER 26.
Definition DI_Interrupt_Disable : ULONG := BIT_NUMBER 22.
Definition WatchdogTimer_Interrupt_Enable : ULONG := BIT_NUMBER 10.
Definition DI_Interrupt_Enable : ULONG := BIT_NUMBER 6.

(** Bit definitions: ChangeDetectIRQ_Register *)
Definition ChangeDetectErrorIRQ_Enable : ULONG := BIT_NUMBER 7.
Definition ChangeDetectErrorIRQ_Disable : ULONG := BIT_NUMBER 6.
Definition ChangeDetectIRQ_Enable : ULONG := BIT_NUMBER 5.
Definition ChangeDetectIRQ_Disable : ULONG := BIT_NUMBER 4.
Definition ChangeDetectErrorIRQ_Acknowledge : ULONG := BIT_NUMBER 1.
Definition ChangeDetectIRQ_Acknowledge : ULONG := BIT_NUMBER 0.

(** Bit definitions: Joint_Reset_Register *)
Definition Software_Reset : ULONG := BIT_NUMBER 0.

(** Bit definitions: ChangeDetectStatusRegister *)
Definition ChangeDetectError : ULONG := BIT_NUMBER 1.
Definition ChangeDetectStatus : ULONG := BIT_NUMBER 0.

(** Bit definitions: Interrupt_Status_Register *)
Definition Int : ULONG := BIT_NUMBER 31.
Definition Additional_Int : ULONG := BIT_NUMBER 30.
Definition External : ULONG := BIT_NUMBER 29.
Definition DAQ_STC3_Int : ULONG := BIT_NUMBER 11.

(** Bit definitions: Volatile_Interrupt_Status_Register *)
Definition Vol_Int : ULONG := BIT_NUMBER 31.
Definition Vol_Additional_Int : ULONG := BIT_NUMBER 30.
Definition Vol_External : ULONG := BIT_NUMBER 29.
Definition Vol_STC3_Int : ULONG := BIT_NUMBER 11.

(** Bit definitions: DI_FilterRegister_Port0and1, DI_FilterRegister_Port2and3 *)
Definition Filter_Large_All_Lines : ULONG := 0xFFFFFFFF.

(** ** Status codes and control codes

    [NTSTATUS] is a signed 32-bit integer; the values below are those of
    ntstatus.h, and [NT_SUCCESS] is the macro of the same name
    ([(NTSTATUS)(s) >= 0]). *)

Definition NTSTATUS := Z.

Definition ntstatus_of_hex (h : Z) : NTSTATUS :=
  if h <? 2 ^ 31 then h else h - 2 ^ 32.

Definition STATUS_SUCCESS : NTSTATUS := 0.
Definition STATUS_NO_MORE_ENTRIES : NTSTATUS := ntstatus_of_hex 0x8000001A.
Definition STATUS_INVALID_PARAMETER : NTSTATUS := ntstatus_of_hex 0xC000000D.
Definition STATUS_BUFFER_TOO_SMALL : NTSTATUS := ntstatus_of_hex 0xC0000023.
Definition STATUS_NONE_MAPPED : NTSTATUS := ntstatus_of_hex 0xC0000073.
Definition STATUS_INVALID_DEVICE_STATE : NTSTATUS := ntstatus_of_hex 0xC0000184.
Definition STATUS_INVALID_BUFFER_SIZE : NTSTATUS := ntstatus_of_hex 0xC0000206.
Definition STATUS_PNP_DRIVER_CONFIGURATION_NOT_FOUND : NTSTATUS :=
  ntstatus_of_hex 0xC0000492.

Definition NT_SUCCESS (s : NTSTATUS) : bool := 0 <=? s.

(** [CTL_CODE(DeviceType, Function, Method, Access)] of the Windows
    headers. *)
Definition CTL_CODE (DeviceType Function Method Access : Z) : ULONG :=
  to_ULONG (Z.lor (Z.lor (Z.lor (Z.shiftl DeviceType 16) (Z.shiftl Access 14))
                         (Z.shiftl Function 2))
                  Method).

Definition METHOD_BUFFERED : Z := 0.
Definition FILE_ANY_ACCESS : Z := 0.
Definition FILE_DEVICE_OSRDIO : Z := 0xD056.

Definition IOCTL_OSRDIO_READ : ULONG :=
  CTL_CODE FILE_DEVICE_OSRDIO 2049 METHOD_BUFFERED FILE_ANY_ACCESS.
Definition IOCTL_OSRDIO_WRITE : ULONG :=
  CTL_CODE FILE_DEVICE_OSRDIO 2050 METHOD_BUFFERED FILE_ANY_ACCESS.
Definition IOCTL_OSRDIO_SET_OUTPUTS : ULONG :=
  CTL_CODE FILE_DEVICE_OSRDIO 2051 METHOD_BUFFERED FILE_ANY_ACCESS.
Definition IOCTL_OSRDIO_WAITFOR_CHANGE : ULONG :=
  CTL_CODE FILE_DEVICE_OSRDIO 2052 METHOD_BUFFERED FILE_ANY_ACCESS.

(** The four payload structures of OsrDio_IOCTL.h each hold one [ULONG]. *)
Definition sizeof_OSRDIO_READ_DATA : Z := 4.
Definition sizeof_OSRDIO_WRITE_DATA : Z := 4.
Definition sizeof_OSRDIO_SET_OUTPUTS_DATA : Z := 4.
Definition sizeof_OSRDIO_CHANGE_DATA : Z := 4.

(** ** Requests and the device context *)

(** A buffered device-control request as the driver sees it: the caller's
    input bytes (of which the driver only ever reads the first [ULONG]) and
    the room the caller left for output. *)
Record WDFREQUEST : Type := mkRequest {
  RequestHandle : Z;
  RequestInputLength : Z;
  RequestInputData : ULONG;
  RequestOutputLength : Z
}.

Definition nullptr : Z := 0.

(** [OSRDIO_DEVICE_CONTEXT].  The three WDF handles are opaque; [DevBase] is
    the kernel virtual address the register block is mapped at, or
    [nullptr]. *)
Record OSRDIO_DEVICE_CONTEXT : Type := mkContext {
  WdfDevice : Z;
  WdfInterrupt : Z;
  DevBase : Z;
  MappedLength : ULONG;
  PendingQueue : Z;
  OutputLineMask : ULONG;
  SavedOutputLineState : ULONG;
  LatchedInputLineState : ULONG
}.

Definition set_OutputLineMask (c : OSRDIO_DEVICE_CONTEXT) (v : ULONG) :=
  mkContext (WdfDevice c) (WdfInterrupt c) (DevBase c) (MappedLength c)
            (PendingQueue c) v (SavedOutputLineState c)
            (LatchedInputLineState c).

Definition set_SavedOutputLineState (c : OSRDIO_DEVICE_CONTEXT) (v : ULONG) :=
  mkContext (WdfDevice c) (WdfInterrupt c) (DevBase c) (MappedLength c)
            (PendingQueue c) (OutputLineMask c) v
            (LatchedInputLineState c).

Definition set_LatchedInputLineState (c : OSRDIO_DEVICE_CONTEXT) (v : ULONG) :=
  mkContext (WdfDevice c) (WdfInterrupt c) (DevBase c) (MappedLength c)
            (PendingQueue c) (OutputLineMask c) (SavedOutputLineState c) v.

(** ** What the outside world can observe *)

Inductive Event : Type :=
| RegRead (r : DIO_REGISTERS) (v : ULONG)
| RegWrite (r : DIO_REGISTERS) (v : ULONG)
| DpcQueued
| OutputStore (req : WDFREQUEST) (v : ULONG)
| Completed (req : WDFREQUEST) (status : NTSTATUS) (information : Z).

Definition is_dpc (e : Event) : bool :=
  match e with DpcQueued => true | _ => false end.

Definition is_completion (e : Event) : bool :=
  match e with Completed _ _ _ => true | _ => false end.

Definition is_store (e : Event) : bool :=
  match e with OutputStore _ _ => true | _ => false end.

Definition is_reg_access (e : Event) : bool :=
  match e with RegRead _ _ | RegWrite _ _ => true | _ => false end.

(** The value that has exactly the bits at the given positions set. *)
Fixpoint bits_value (positions : list Z) : Z :=
  match positions with
  | [] => 0
  | p :: rest => Z.lor (2 ^ p) (bits_value rest)
  end.

(** The register writes of a trace, oldest first. *)
Fixpoint writes_of (t : list Event) : list (DIO_REGISTERS * ULONG) :=
  match t with
  | [] => []
  | RegWrite r v :: t' => (r, v) :: writes_of t'
  | _ :: t' => writes_of t'
  end.

(** The value a register was last programmed with, if it was written. *)
Fixpoint last_written (off : Z) (t : list Event) : option ULONG :=
  match t with
  | [] => None
  | RegWrite r v :: t' =>
      match last_written off t' with
      | Some v' => Some v'
      | None => if reg_offset r =? off then Some v else None
      end
  | _ :: t' => last_written off t'
  end.

(** ** The register interface

    [READ_REGISTER_ULONG] and [WRITE_REGISTER_ULONG] reach a device whose
    behaviour the driver does not control: a read returns what the device
    decides and may change the device (reading the volatile interrupt
    status acknowledges the interrupt), and a write is whatever the device
    makes of it.  The driver is verified against every such device. *)
Class RegisterInterface (HW : Type) : Type := {
  mmio_read : HW -> Z -> Z * HW;
  mmio_write : HW -> Z -> ULONG -> HW
}.

Section Driver.

Context {HW : Type} {bus : RegisterInterface HW}.

(** The value a 32-bit read of register [r] returns in device state [h],
    and the state the device is left in. *)
Definition read_value (h : HW) (r : DIO_REGISTERS) : ULONG :=
  to_ULONG (fst (mmio_read h (reg_offset r))).

Definition read_next (h : HW) (r : DIO_REGISTERS) : HW :=
  snd (mmio_read h (reg_offset r)).

Definition write_next (h : HW) (r : DIO_REGISTERS) (v : ULONG) : HW :=
  mmio_write h (reg_offset r) v.

Record World : Type := mkWorld {
  hw : HW;
  ctx : OSRDIO_DEVICE_CONTEXT;
  pending : list WDFREQUEST;
  trace : list Event
}.

(** A driver routine either returns a value in a new world or brings the
    system down: the register macros dereference [DevBase] without a check,
    so an access through a null [DevBase] is a fault.
    [OsrDioEvtDevicePrepareHardware] refuses to start the device unless the
    register block was mapped, so the callbacks below normally run with
    [DevBase] set; the statements that touch a register say so. *)
Inductive Outcome (A : Type) : Type :=
| Ok (a : A) (w : World)
| BugCheck.

Arguments Ok {A} a w.
Arguments BugCheck {A}.

Definition Drv (A : Type) : Type := World -> Outcome A.

Definition ret {A} (a : A) : Drv A := fun w => Ok a w.

Definition bind {A B} (m : Drv A) (k : A -> Drv B) : Drv B :=
  fun w => match m w with
           | Ok a w' => k a w'
           | BugCheck => BugCheck
           end.

Notation "x <- m ;; k" := (bind m (fun x => k))
  (at level 61, m at next level, right associativity).
Notation "m ;;; k" := (bind m (fun _ => k))
  (at level 61, right associativity).

Definition when (b : bool) (m : Drv unit) : Drv unit :=
  if b then m else ret tt.

Definition emit (e : Event) : Drv unit :=
  fun w => Ok tt (mkWorld (hw w) (ctx w) (pending w) (trace w ++ [e])).

Definition getContext : Drv OSRDIO_DEVICE_CONTEXT :=
  fun w => Ok (ctx w) w.

Definition putContext (c : OSRDIO_DEVICE_CONTEXT) : Drv unit :=
  fun w => Ok tt (mkWorld (hw w) c (pending w) (trace w)).

Definition READ_REGISTER_ULONG (r : DIO_REGISTERS) : Drv ULONG :=
  fun w =>
    if DevBase (ctx w) =? nullptr then BugCheck
    else
      let v := read_value (hw w) r in
      Ok v (mkWorld (read_next (hw w) r) (ctx w) (pending w)
                    (trace w ++ [RegRead r v])).

Definition WRITE_REGISTER_ULONG (r : DIO_REGISTERS) (v : ULONG) : Drv unit :=
  fun w =>
    if DevBase (ctx w) =? nullptr then BugCheck
    else
      Ok tt (mkWorld (write_next (hw w) r v) (ctx w) (pending w)
                     (trace w ++ [RegWrite r v])).

(** ** The framework calls the driver makes

    The Windows Driver Framework is not part of the sources; the calls the
    driver makes into it are modelled from what the specification says
    about the collaborators of the core. *)

(** Modelled from the spec: the buffer-access step for a request's output
    buffer.  The buffer is usable when it can hold what the driver asks for
    (section 4.7: "large enough to hold one latched-state value"), and
    otherwise the step produces an error. *)
Definition output_buffer_status (Request : WDFREQUEST)
    (MinimumRequiredSize : Z) : NTSTATUS :=
  if RequestOutputLength Request <? MinimumRequiredSize
  then STATUS_BUFFER_TOO_SMALL else STATUS_SUCCESS.

(** Modelled from the spec: the same step for the input payload. *)
Definition input_buffer_status (Request : WDFREQUEST)
    (MinimumRequiredSize : Z) : NTSTATUS :=
  if RequestInputLength Request <? MinimumRequiredSize
  then STATUS_BUFFER_TOO_SMALL else STATUS_SUCCESS.

Definition WdfRequestRetrieveOutputBuffer (Request : WDFREQUEST)
    (MinimumRequiredSize : Z) : Drv NTSTATUS :=
  ret (output_buffer_status Request MinimumRequiredSize).

Definition WdfRequestRetrieveInputBuffer (Request : WDFREQUEST)
    (MinimumRequiredSize : Z) : Drv NTSTATUS :=
  ret (input_buffer_status Request MinimumRequiredSize).

(** Modelled from the spec: insertion into the pending queue, the FIFO of
    section 4.7.  The queue imposes no numeric limit (section 3), so the
    request joins the tail. *)
Definition WdfRequestForwardToIoQueue (Request : WDFREQUEST) : Drv NTSTATUS :=
  fun w => Ok STATUS_SUCCESS
              (mkWorld (hw w) (ctx w) (pending w ++ [Request]) (trace w)).

(** Modelled from the spec: removal from the pending queue (section 4.7:
    "Dequeue is FIFO and non-blocking -- if empty, returns none"). *)
Definition WdfIoQueueRetrieveNextRequest : Drv (NTSTATUS * option WDFREQUEST) :=
  fun w => match pending w with
           | [] => Ok (STATUS_NO_MORE_ENTRIES, None) w
           | r :: rest =>
               Ok (STATUS_SUCCESS, Some r)
                  (mkWorld (hw w) (ctx w) rest (trace w))
           end.

(** Modelled from the spec: completing a request returns it to its caller
    with a status and a byte count; it is recorded in the trace. *)
Definition WdfRequestCompleteWithInformation (Request : WDFREQUEST)
    (Status : NTSTATUS) (Information : Z) : Drv unit :=
  emit (Completed Request Status Information).

(** Modelled from the spec: the "schedule deferred work" primitive of the
    interrupt-dispatch facility (section 6); it is recorded in the trace. *)
Definition WdfInterruptQueueDpcForIsr : Drv unit := emit DpcQueued.

(** ** Utility routines (OsrDio.cpp) *)

Definition DioUtilProgramLineDirectionAndChangeMasks : Drv unit :=
  WRITE_REGISTER_ULONG DI_FilterRegister_Port0and1 Filter_Large_All_Lines ;;;
  WRITE_REGISTER_ULONG DI_FilterRegister_Port2and3 Filter_Large_All_Lines ;;;
  DevContext <- getContext ;;
  WRITE_REGISTER_ULONG DIO_Direction_Register (OutputLineMask DevContext) ;;;
  DevContext <- getContext ;;
  WRITE_REGISTER_ULONG DI_ChangeIrqRE_Register
                       (ulong_not (OutputLineMask DevContext)) ;;;
  DevContext <- getContext ;;
  WRITE_REGISTER_ULONG DI_ChangeIrqFE_Register
                       (ulong_not (OutputLineMask DevContext)).

Definition DioUtilResetDeviceInterrupts : Drv unit :=
  WRITE_REGISTER_ULONG Joint_Reset_Register Software_Reset ;;;
  WRITE_REGISTER_ULONG Interrupt_Mask_Register
                       (Z.lor Clear_CPU_Int Clear_STC3_Int) ;;;
  WRITE_REGISTER_ULONG GlobalInterruptEnable_Register
                       (Z.lor DI_Interrupt_Disable
                              WatchdogTimer_Interrupt_Disable) ;;;
  WRITE_REGISTER_ULONG ChangeDetectIRQ_Register
                       (Z.lor (Z.lor (Z.lor ChangeDetectIRQ_Acknowledge
                                            ChangeDetectIRQ_Disable)
                                     ChangeDetectErrorIRQ_Acknowledge)
                              ChangeDetectErrorIRQ_Disable).

Definition DioUtilEnableDeviceInterrupts : Drv unit :=
  WRITE_REGISTER_ULONG GlobalInterruptEnable_Register DI_Interrupt_Enable ;;;
  WRITE_REGISTER_ULONG ChangeDetectIRQ_Register
                       (Z.lor ChangeDetectErrorIRQ_Enable
                              ChangeDetectIRQ_Enable) ;;;
  WRITE_REGISTER_ULONG Interrupt_Mask_Register
                       (Z.lor Set_CPU_Int Set_STC3_Int).

Definition DioUtilDeviceReset : Drv unit :=
  DioUtilResetDeviceInterrupts ;;;
  WRITE_REGISTER_ULONG DIO_Direction_Register 0x00000000 ;;;
  WRITE_REGISTER_ULONG Static_Digital_Output_Register 0x00000000 ;;;
  WRITE_REGISTER_ULONG DI_ChangeIrqRE_Register 0x00000000 ;;;
  WRITE_REGISTER_ULONG DI_ChangeIrqFE_Register 0x00000000.

(** ** Power and interrupt callbacks *)

Definition OsrDioEvtDeviceD0Entry : Drv NTSTATUS :=
  devContext <- getContext ;;
  WRITE_REGISTER_ULONG Static_Digital_Output_Register
                       (SavedOutputLineState devContext) ;;;
  ret STATUS_SUCCESS.

Definition OsrDioEvtDeviceD0Exit : Drv NTSTATUS :=
  outputLineState <- READ_REGISTER_ULONG Static_Digital_Input_Register ;;
  devContext <- getContext ;;
  let outputLineState := Z.land outputLineState (OutputLineMask devContext) in
  putContext (set_SavedOutputLineState devContext outputLineState) ;;;
  ret STATUS_SUCCESS.

Definition OsrDioEvtInterruptEnable : Drv NTSTATUS :=
  DioUtilResetDeviceInterrupts ;;;
  DioUtilEnableDeviceInterrupts ;;;
  DioUtilProgramLineDirectionAndChangeMasks ;;;
  ret STATUS_SUCCESS.

Definition OsrDioEvtInterruptDisable : Drv NTSTATUS :=
  DioUtilResetDeviceInterrupts ;;;
  ret STATUS_SUCCESS.

(** ** Device control *)

(** The two labels the body of [OsrDioEvtIoDeviceControl] leaves through:
    [done] completes the request with the status and byte count reached,
    [doneDoNotComplete] returns with the request still in progress. *)
Inductive Exit : Type :=
| done (status : NTSTATUS) (bytesReadorWritten : Z)
| doneDoNotComplete.

Definition ioctl_READ (Request : WDFREQUEST) : Drv Exit :=
  status <- WdfRequestRetrieveOutputBuffer Request sizeof_OSRDIO_READ_DATA ;;
  if negb (NT_SUCCESS status) then ret (done status 0)
  else
    CurrentLineState <- READ_REGISTER_ULONG Static_Digital_Input_Register ;;
    emit (OutputStore Request CurrentLineState) ;;;
    ret (done STATUS_SUCCESS sizeof_OSRDIO_READ_DATA).

Definition ioctl_WRITE (Request : WDFREQUEST) : Drv Exit :=
  devContext <- getContext ;;
  if OutputLineMask devContext =? 0
  then ret (done STATUS_INVALID_DEVICE_STATE 0)
  else
    status <- WdfRequestRetrieveInputBuffer Request sizeof_OSRDIO_WRITE_DATA ;;
    if negb (NT_SUCCESS status) then ret (done status 0)
    else
      let linesToAssert := RequestInputData Request in
      devContext <- getContext ;;
      let linesToAssert := Z.land linesToAssert (OutputLineMask devContext) in
      WRITE_REGISTER_ULONG Static_Digital_Output_Register linesToAssert ;;;
      ret (done STATUS_SUCCESS sizeof_OSRDIO_WRITE_DATA).

Definition ioctl_SET_OUTPUTS (Request : WDFREQUEST) : Drv Exit :=
  status <- WdfRequestRetrieveInputBuffer Request
                                          sizeof_OSRDIO_SET_OUTPUTS_DATA ;;
  if negb (NT_SUCCESS status) then ret (done status 0)
  else
    devContext <- getContext ;;
    putContext (set_OutputLineMask devContext (RequestInputData Request)) ;;;
    DioUtilProgramLineDirectionAndChangeMasks ;;;
    ret (done STATUS_SUCCESS sizeof_OSRDIO_SET_OUTPUTS_DATA).

Definition ioctl_WAITFOR_CHANGE (Request : WDFREQUEST)
    (OutputBufferLength : Z) : Drv Exit :=
  devContext <- getContext ;;
  if ulong_not (OutputLineMask devContext) =? 0
  then ret (done STATUS_NONE_MAPPED 0)
  else if OutputBufferLength <? sizeof_OSRDIO_CHANGE_DATA
  then ret (done STATUS_INVALID_BUFFER_SIZE 0)
  else
    status <- WdfRequestForwardToIoQueue Request ;;
    if negb (NT_SUCCESS status) then ret (done status 0)
    else ret doneDoNotComplete.

Definition OsrDioEvtIoDeviceControl (Request : WDFREQUEST)
    (OutputBufferLength InputBufferLength : Z) (IoControlCode : ULONG)
    : Drv unit :=
  e <- (if IoControlCode =? IOCTL_OSRDIO_READ then ioctl_READ Request
        else if IoControlCode =? IOCTL_OSRDIO_WRITE then ioctl_WRITE Request
        else if IoControlCode =? IOCTL_OSRDIO_SET_OUTPUTS
             then ioctl_SET_OUTPUTS Request
        else if IoControlCode =? IOCTL_OSRDIO_WAITFOR_CHANGE
             then ioctl_WAITFOR_CHANGE Request OutputBufferLength
        else ret (done STATUS_INVALID_PARAMETER 0)) ;;
  match e with
  | done status bytesReadorWritten =>
      WdfRequestCompleteWithInformation Request status bytesReadorWritten
  | doneDoNotComplete => ret tt
  end.

(** ** The interrupt service routine and its DPC *)

Definition OsrDioEvtInterruptIsr : Drv bool :=
  interruptStatus <- READ_REGISTER_ULONG Volatile_Interrupt_Status_Register ;;
  if Z.land interruptStatus Vol_Int =? 0 then ret false
  else
    changeDetectReg <- READ_REGISTER_ULONG ChangeDetectStatusRegister ;;
    when ((Z.land changeDetectReg ChangeDetectStatus =? 1) &&
          (Z.land changeDetectReg ChangeDetectError =? 0))
         (lineState <- READ_REGISTER_ULONG DI_ChangeDetectLatched_Register ;;
          devContext <- getContext ;;
          putContext (set_LatchedInputLineState devContext lineState) ;;;
          WdfInterruptQueueDpcForIsr) ;;;
    when (negb (Z.land changeDetectReg ChangeDetectStatus =? 0))
         (WRITE_REGISTER_ULONG ChangeDetectIRQ_Register
                               ChangeDetectIRQ_Acknowledge) ;;;
    when (negb (Z.land changeDetectReg ChangeDetectError =? 0))
         (WRITE_REGISTER_ULONG ChangeDetectIRQ_Register
                               ChangeDetectErrorIRQ_Acknowledge) ;;;
    ret true.

Definition OsrDioEvtInterruptDpc : Drv unit :=
  r <- WdfIoQueueRetrieveNextRequest ;;
  if negb (NT_SUCCESS (fst r)) then ret tt
  else
    match snd r with
    | None => fun _ => BugCheck
    | Some waitingRequest =>
        status <- WdfRequestRetrieveOutputBuffer waitingRequest
                                                 sizeof_OSRDIO_CHANGE_DATA ;;
        (if NT_SUCCESS status
         then
           devContext <- getContext ;;
           emit (OutputStore waitingRequest
                             (LatchedInputLineState devContext)) ;;;
           WdfRequestCompleteWithInformation waitingRequest STATUS_SUCCESS
                                             sizeof_OSRDIO_CHANGE_DATA
         else
           WdfRequestCompleteWithInformation waitingRequest status 0)
    end.

(** ** Hardware acquisition and release

    The routines are modelled as compiled for a free build: [ASSERT] and
    the [DbgPrint] calls under [#if DBG] are compiled out. *)

(** A translated partial resource descriptor, by its [Type]: a memory
    range, an interrupt, or any other type (device-private ones
    included). *)
Inductive CM_PARTIAL_RESOURCE_DESCRIPTOR : Type :=
| CmResourceTypeMemory (Start : Z) (Length : ULONG)
| CmResourceTypeInterrupt
| CmResourceTypeOther (Type_ : Z).

Definition set_DevBase (c : OSRDIO_DEVICE_CONTEXT) (v : Z) :=
  mkContext (WdfDevice c) (WdfInterrupt c) v (MappedLength c)
            (PendingQueue c) (OutputLineMask c) (SavedOutputLineState c)
            (LatchedInputLineState c).

Definition set_MappedLength (c : OSRDIO_DEVICE_CONTEXT) (v : ULONG) :=
  mkContext (WdfDevice c) (WdfInterrupt c) (DevBase c) v
            (PendingQueue c) (OutputLineMask c) (SavedOutputLineState c)
            (LatchedInputLineState c).

(** The [for] loop of [OsrDioEvtDevicePrepareHardware] over the translated
    resources, from descriptor [i] on; the result is [interruptFound].
    [MmMapIoSpaceEx] is the kernel's mapping facility: it returns the
    address the range is mapped at, or [nullptr]. *)
Fixpoint prepare_resources (MmMapIoSpaceEx : Z -> ULONG -> Z)
    (TranslatedResources : list CM_PARTIAL_RESOURCE_DESCRIPTOR)
    (interruptFound : bool) : Drv bool :=
  match TranslatedResources with
  | [] => ret interruptFound
  | resourceTrans :: rest =>
      match resourceTrans with
      | CmResourceTypeMemory Start Length =>
          (if Length =? DIO_BAR_SIZE then
             devContext <- getContext ;;
             putContext (set_DevBase devContext
                                     (MmMapIoSpaceEx Start Length)) ;;;
             devContext <- getContext ;;
             if DevBase devContext =? nullptr
             then putContext (set_MappedLength devContext 0)
             else putContext (set_MappedLength devContext Length)
           else ret tt) ;;;
          prepare_resources MmMapIoSpaceEx rest interruptFound
      | CmResourceTypeInterrupt =>
          prepare_resources MmMapIoSpaceEx rest true
      | CmResourceTypeOther _ =>
          prepare_resources MmMapIoSpaceEx rest interruptFound
      end
  end.

Definition OsrDioEvtDevicePrepareHardware (MmMapIoSpaceEx : Z -> ULONG -> Z)
    (TranslatedResources : list CM_PARTIAL_RESOURCE_DESCRIPTOR)
    : Drv NTSTATUS :=
  interruptFound <- prepare_resources MmMapIoSpaceEx TranslatedResources
                                      false ;;
  devContext <- getContext ;;
  if (DevBase devContext =? nullptr) || negb interruptFound
  then ret STATUS_PNP_DRIVER_CONFIGURATION_NOT_FOUND
  else
    putContext (set_OutputLineMask devContext 0) ;;;
    devContext <- getContext ;;
    putContext (set_SavedOutputLineState devContext 0) ;;;
    DioUtilDeviceReset ;;;
    ret STATUS_SUCCESS.

(** [MmUnmapIoSpace] leaves no trace of its own: what it does to the
    driver is that the registers can no longer be reached, which the null
    [DevBase] stands for. *)
Definition OsrDioEvtDeviceReleaseHardware : Drv NTSTATUS :=
  devContext <- getContext ;;
  (if negb (DevBase devContext =? nullptr)
   then
     putContext (set_DevBase devContext nullptr) ;;;
     devContext <- getContext ;;
     putContext (set_MappedLength devContext 0)
   else ret tt) ;;;
  ret STATUS_SUCCESS.

(** ** Observations used in the statements *)

(** The run [o], started in [w], did nothing but complete [req] with
    [status] and [information]: device, context and pending queue are as
    in [w], and the completion is the only new event. *)
Definition completes_with (o : Outcome unit) (w : World) (req : WDFREQUEST)
    (status : NTSTATUS) (information : Z) : Prop :=
  o = Ok tt (mkWorld (hw w) (ctx w) (pending w)
                     (trace w ++ [Completed req status information])).

(** A read-line-state request succeeded: the input register was read once,
    the value read was stored in the caller's buffer, and the request was
    completed with success and the size of one result. *)
Definition read_line_state_succeeds (w : World) (Request : WDFREQUEST)
    (OutputBufferLength InputBufferLength : Z) : Prop :=
  let v := read_value (hw w) Static_Digital_Input_Register in
  OsrDioEvtIoDeviceControl Request OutputBufferLength InputBufferLength
                           IOCTL_OSRDIO_READ w =
    Ok tt (mkWorld (read_next (hw w) Static_Digital_Input_Register)
                   (ctx w) (pending w)
                   (trace w ++ [RegRead Static_Digital_Input_Register v;
                                OutputStore Request v;
                                Completed Request STATUS_SUCCESS
                                          sizeof_OSRDIO_READ_DATA])).

(** The device after a sequence of register writes. *)
Definition apply_writes (h : HW) (ws : list (DIO_REGISTERS * ULONG)) : HW :=
  fold_left (fun h' rv => write_next h' (fst rv) (snd rv)) ws h.

(** Power-down immediately followed by power-up. *)
Definition power_down_then_up : Drv NTSTATUS :=
  OsrDioEvtDeviceD0Exit ;;; OsrDioEvtDeviceD0Entry.

(** The trace of a sequence of register writes. *)
Definition write_events (ws : list (DIO_REGISTERS * ULONG)) : list Event :=
  map (fun rv => RegWrite (fst rv) (snd rv)) ws.

(** A memory resource of the size the driver recognises its BAR by. *)
Definition is_bar_resource (r : CM_PARTIAL_RESOURCE_DESCRIPTOR) : bool :=
  match r with
  | CmResourceTypeMemory _ Length => Length =? DIO_BAR_SIZE
  | _ => false
  end.

Definition is_interrupt_resource (r : CM_PARTIAL_RESOURCE_DESCRIPTOR) : bool :=
  match r with
  | CmResourceTypeInterrupt => true
  | _ => false
  end.

(** What one translated resource does to the device context in the loop
    of [OsrDioEvtDevicePrepareHardware]. *)
Definition resource_step (MmMapIoSpaceEx : Z -> ULONG -> Z)
    (c : OSRDIO_DEVICE_CONTEXT) (r : CM_PARTIAL_RESOURCE_DESCRIPTOR)
    : OSRDIO_DEVICE_CONTEXT :=
  match r with
  | CmResourceTypeMemory Start Length =>
      if Length =? DIO_BAR_SIZE
      then set_MappedLength
             (set_DevBase c (MmMapIoSpaceEx Start Length))
             (if MmMapIoSpaceEx Start Length =? nullptr then 0 else Length)
      else c
  | _ => c
  end.

(** The register writes of [DioUtilResetDeviceInterrupts] and of
    [DioUtilDeviceReset], in program order. *)
Definition interrupt_reset_writes : list (DIO_REGISTERS * ULONG) :=
  [(Joint_Reset_Register, Software_Reset);
   (Interrupt_Mask_Register, Z.lor Clear_CPU_Int Clear_STC3_Int);
   (GlobalInterruptEnable_Register,
    Z.lor DI_Interrupt_Disable WatchdogTimer_Interrupt_Disable);
   (ChangeDetectIRQ_Register,
    Z.lor (Z.lor (Z.lor ChangeDetectIRQ_Acknowledge ChangeDetectIRQ_Disable)
                 ChangeDetectErrorIRQ_Acknowledge)
          ChangeDetectErrorIRQ_Disable)].

Definition device_reset_writes : list (DIO_REGISTERS * ULONG) :=
  interrupt_reset_writes
  ++ [(DIO_Direction_Register, 0);
      (Static_Digital_Output_Register, 0);
      (DI_ChangeIrqRE_Register, 0);
      (DI_ChangeIrqFE_Register, 0)].

(** [n] runs of the DPC in a row, with no interrupt in between. *)
Fixpoint run_dpcs (n : nat) : Drv unit :=
  match n with
  | O => ret tt
  | S k => OsrDioEvtInterruptDpc ;;; run_dpcs k
  end.

(** What a successful DPC run records for the request it serves. *)
Definition delivery (c : OSRDIO_DEVICE_CONTEXT) (req : WDFREQUEST)
    : list Event :=
  [OutputStore req (LatchedInputLineState c);
   Completed req STATUS_SUCCESS sizeof_OSRDIO_CHANGE_DATA].

End Driver.

Arguments mkWorld {HW} hw ctx pending trace.
Arguments Ok {HW A} a w.
Arguments BugCheck {HW A}.

(** ** A simulated register bank

    A small instance of the register interface, used to run the driver on
    concrete inputs.  Lines configured as outputs read back the value of the
    output register, the others read the external wiring; reading the
    volatile interrupt status clears it; the two acknowledge bits of the
    change-detect IRQ register clear the matching status bits. *)

Record SimBank : Type := mkSim {
  sim_wiring : ULONG;
  sim_output : ULONG;
  sim_direction : ULONG;
  sim_vol_status : ULONG;
  sim_cd_status : ULONG;
  sim_cd_latched : ULONG
}.

Definition sim_read (b : SimBank) (off : Z) : Z * SimBank :=
  if off =? reg_offset Static_Digital_Input_Register then
    (Z.lor (Z.land (sim_output b) (sim_direction b))
           (Z.land (sim_wiring b) (ulong_not (sim_direction b))), b)
  else if off =? reg_offset Volatile_Interrupt_Status_Register then
    (sim_vol_status b,
     mkSim (sim_wiring b) (sim_output b) (sim_direction b) 0
           (sim_cd_status b) (sim_cd_latched b))
  else if off =? reg_offset ChangeDetectStatusRegister then
    (sim_cd_status b, b)
  else if off =? reg_offset DI_ChangeDetectLatched_Register then
    (sim_cd_latched b, b)
  else (0, b).

Definition sim_write (b : SimBank) (off : Z) (v : ULONG) : SimBank :=
  if off =? reg_offset Static_Digital_Output_Register then
    mkSim (sim_wiring b) v (sim_direction b) (sim_vol_status b)
          (sim_cd_status b) (sim_cd_latched b)
  else if off =? reg_offset DIO_Direction_Register then
    mkSim (sim_wiring b) (sim_output b) v (sim_vol_status b)
          (sim_cd_status b) (sim_cd_latched b)
  else if off =? reg_offset ChangeDetectIRQ_Register then
    mkSim (sim_wiring b) (sim_output b) (sim_direction b) (sim_vol_status b)
          (Z.land (sim_cd_status b) (ulong_not (Z.land v 3)))
          (sim_cd_latched b)
  else b.

#[export] Instance SimBank_bus : RegisterInterface SimBank := {
  mmio_read := sim_read;
  mmio_write := sim_write
}.

(** A bank with nothing wired, nothing asserted and no interrupt pending. *)
Definition sim_idle : SimBank := mkSim 0 0 0 0 0 0.

(** A bank that has latched [0xCAFEBABE] and raised its interrupt. *)
Definition sim_changed : SimBank :=
  mkSim 0xCAFEBABE 0 0 Vol_Int ChangeDetectStatus 0xCAFEBABE.

(** A device context with the registers mapped and output mask [mask]. *)
Definition mapped_context (mask : ULONG) : OSRDIO_DEVICE_CONTEXT :=
  mkContext 1 2 0xFFFFF78000000000 DIO_BAR_SIZE 3 mask 0 0.

(** The context before the registers are mapped. *)
Definition unmapped_context (mask : ULONG) : OSRDIO_DEVICE_CONTEXT :=
  mkContext 1 2 nullptr 0 3 mask 0 0.

Definition sim_world (b : SimBank) (c : OSRDIO_DEVICE_CONTEXT)
    (q : list WDFREQUEST) : World :=
  mkWorld b c q [].

(** Requests: one carrying an input value, one with room for one result,
    one with no buffers at all. *)
Definition request_in (h : Z) (v : ULONG) : WDFREQUEST := mkRequest h 4 v 0.
Definition request_out (h : Z) : WDFREQUEST := mkRequest h 0 0 4.
Definition request_bare (h : Z) : WDFREQUEST := mkRequest h 0 0 0.

(** A bank that signals its interrupt with the change-detect status
    register reading [cd]. *)
Definition sim_signalling (cd : ULONG) : SimBank :=
  mkSim 0 0 0 Vol_Int cd 0x1234.

(** The mapping facility of the examples: every range maps to the same
    address; and one that always fails. *)
Definition map_ok (Start : Z) (Length : ULONG) : Z := 0xFFFFF78000000000.
Definition map_fails (Start : Z) (Length : ULONG) : Z := nullptr.

(** Translated resources as the bus driver hands them over: a private
    resource, the BAR, a smaller memory range and the interrupt. *)
Definition sample_resources : list CM_PARTIAL_RESOURCE_DESCRIPTOR :=
  [CmResourceTypeOther 129;
   CmResourceTypeMemory 0xF7000000 DIO_BAR_SIZE;
   CmResourceTypeMemory 0xF7100000 4096;
   CmResourceTypeInterrupt].

(** ** Two scenarios on the simulated bank *)

(** Lines 0-3 become outputs, 0x5 is asserted on them, the lines are read. *)
Definition scenario_write_then_read : Drv (HW := SimBank) unit :=
  bind (OsrDioEvtIoDeviceControl (request_in 1 0x0000000F) 0 4
                                 IOCTL_OSRDIO_SET_OUTPUTS)
       (fun _ =>
  bind (OsrDioEvtIoDeviceControl (request_in 2 0x00000005) 0 4
                                 IOCTL_OSRDIO_WRITE)
       (fun _ =>
  OsrDioEvtIoDeviceControl (request_out 3) 4 0 IOCTL_OSRDIO_READ)).

(** A caller waits for a change, the interrupt fires, the DPC runs. *)
Definition scenario_wait_then_interrupt : Drv (HW := SimBank) unit :=
  bind (OsrDioEvtIoDeviceControl (request_out 4) 4 0
                                 IOCTL_OSRDIO_WAITFOR_CHANGE)
       (fun _ =>
  bind OsrDioEvtInterruptIsr
       (fun _ => OsrDioEvtInterruptDpc)).

(** * Properties *)

(** ** Arithmetic of the bit operations *)

Lemma land_single_bit (v k : Z) :
  0 <= k -> Z.land v (2 ^ k) = if Z.testbit v k then 2 ^ k else 0.
Proof.
  intros Hk. apply Z.bits_inj'. intros n Hn.
  rewrite Z.land_spec, Z.pow2_bits_eqb by assumption.
  destruct (Z.eqb_spec k n) as [->|Hne].
  - destruct (Z.testbit v n); cbn.
    + now rewrite Z.pow2_bits_eqb, Z.eqb_refl.
    + now rewrite Z.bits_0.
  - rewrite andb_false_r.
    destruct (Z.testbit v k).
    + rewrite Z.pow2_bits_eqb by assumption.
      symmetry. now apply Z.eqb_neq.
    + now rewrite Z.bits_0.
Qed.

Lemma BIT_NUMBER_pow2 (k : Z) : 0 <= k < 32 -> BIT_NUMBER k = 2 ^ k.
Proof.
  intros Hk. unfold BIT_NUMBER, to_ULONG.
  rewrite Z.shiftl_1_l. apply Z.mod_small.
  split; [apply Z.pow_nonneg; lia | apply Z.pow_lt_mono_r; lia].
Qed.

Lemma land_BIT_NUMBER_eq0 (v k : Z) :
  0 <= k < 32 -> (Z.land v (BIT_NUMBER k) =? 0) = negb (Z.testbit v k).
Proof.
  intros Hk. rewrite BIT_NUMBER_pow2, land_single_bit by lia.
  destruct (Z.testbit v k); cbn; [|reflexivity].
  apply Z.eqb_neq. assert (0 < 2 ^ k) by (apply Z.pow_pos_nonneg; lia). lia.
Qed.

Lemma land_bit0_eq1 (v : Z) :
  (Z.land v (BIT_NUMBER 0) =? 1) = Z.testbit v 0.
Proof.
  rewrite BIT_NUMBER_pow2, land_single_bit by lia.
  now destruct (Z.testbit v 0).
Qed.

Lemma ulong_not_sub (m : Z) : is_ULONG m -> ulong_not m = ULONG_MAX - m.
Proof.
  unfold is_ULONG, ULONG_MAX, ulong_not, to_ULONG. intros Hm.
  symmetry. apply Z.mod_unique with (q := -1); unfold Z.lnot; lia.
Qed.

Lemma ulong_not_range (m : Z) : is_ULONG (ulong_not m).
Proof.
  unfold is_ULONG, ULONG_MAX, ulong_not, to_ULONG.
  pose proof (Z.mod_pos_bound (Z.lnot m) (2 ^ 32)). lia.
Qed.

Lemma ulong_not_bits (m i : Z) :
  0 <= i < 32 -> Z.testbit (ulong_not m) i = negb (Z.testbit m i).
Proof.
  intros Hi. unfold ulong_not, to_ULONG.
  rewrite Z.mod_pow2_bits_low by lia. apply Z.lnot_spec. lia.
Qed.

Lemma ulong_not_zero_iff (m : Z) :
  is_ULONG m -> (ulong_not m =? 0) = (m =? ULONG_MAX).
Proof.
  intros Hm. rewrite ulong_not_sub by assumption.
  destruct (Z.eqb_spec m ULONG_MAX); [apply Z.eqb_eq | apply Z.eqb_neq]; lia.
Qed.

Lemma land_mask_bits (v m i : Z) :
  Z.testbit m i = false -> Z.testbit (Z.land v m) i = false.
Proof.
  intros Hm. now rewrite Z.land_spec, Hm, andb_false_r.
Qed.

Section Properties.

Context {HW : Type} {bus : RegisterInterface HW}.

(** ** Running the primitives *)

Lemma run_read (r : DIO_REGISTERS) (w : World) :
  DevBase (ctx w) <> nullptr ->
  READ_REGISTER_ULONG r w =
    Ok (read_value (hw w) r)
       (mkWorld (read_next (hw w) r) (ctx w) (pending w)
                (trace w ++ [RegRead r (read_value (hw w) r)])).
Proof.
  intros Hmap. unfold READ_REGISTER_ULONG.
  now apply Z.eqb_neq in Hmap as ->.
Qed.

Lemma run_write (r : DIO_REGISTERS) (v : ULONG) (w : World) :
  DevBase (ctx w) <> nullptr ->
  WRITE_REGISTER_ULONG r v w =
    Ok tt (mkWorld (write_next (hw w) r v) (ctx w) (pending w)
                   (trace w ++ [RegWrite r v])).
Proof.
  intros Hmap. unfold WRITE_REGISTER_ULONG.
  now apply Z.eqb_neq in Hmap as ->.
Qed.

Lemma bind_Ok {A B} (m : Drv A) (k : A -> Drv B) (w w' : @World HW) (a : A) :
  m w = Ok a w' -> bind m k w = k a w'.
Proof. unfold bind. now intros ->. Qed.

(** After a step the goal is again [bind m k w] at a concrete world; the
    context changes only through the setters, which keep [DevBase]. *)
Ltac drv_step :=
  first
    [ erewrite bind_Ok by (apply run_read; cbn; assumption)
    | erewrite bind_Ok by (apply run_write; cbn; assumption)
    | erewrite bind_Ok by reflexivity
    | rewrite run_write by (cbn; assumption)
    | rewrite run_read by (cbn; assumption) ];
  cbn [hw ctx pending trace].

Ltac drv_trace := rewrite <- ?app_assoc; cbn [app].

(** ** The interrupt service routine *)

(** C8: when the volatile interrupt-status read has the interrupt-active
    bit (bit 31) clear, the ISR returns FALSE ("not mine"); the only thing
    it has done is that one read: no register is written, no DPC is queued,
    and the device context and the pending queue are as they were. *)
Theorem isr_not_mine (w : World) :
  DevBase (ctx w) <> nullptr ->
  let interruptStatus := read_value (hw w) Volatile_Interrupt_Status_Register in
  let events := [RegRead Volatile_Interrupt_Status_Register interruptStatus] in
  Z.testbit interruptStatus 31 = false ->
  OsrDioEvtInterruptIsr w =
    Ok false
       (mkWorld (read_next (hw w) Volatile_Interrupt_Status_Register)
                (ctx w) (pending w) (trace w ++ events))
  /\ writes_of events = []
  /\ filter is_dpc events = [].
Proof.
  intros Hmap interruptStatus events Hbit.
  split; [|split; reflexivity].
  unfold OsrDioEvtInterruptIsr.
  drv_step.
  fold interruptStatus.
  unfold Vol_Int. rewrite land_BIT_NUMBER_eq0 by lia.
  rewrite Hbit. reflexivity.
Qed.

(** C1: when the volatile interrupt-status read has the interrupt-active
    bit set and the one read of the change-detect status register has the
    status bit (bit 0) set and the error bit (bit 1) clear, the ISR reads
    the latched-input register, stores that value in
    [LatchedInputLineState] (the field of the resulting context holds the
    value read, and the other fields hold what they held), queues the DPC
    exactly once and writes the change-detect IRQ register exactly once,
    with the status-acknowledge bit; it returns TRUE. *)
Theorem isr_change_detected (w : World) :
  DevBase (ctx w) <> nullptr ->
  let interruptStatus := read_value (hw w) Volatile_Interrupt_Status_Register in
  let h1 := read_next (hw w) Volatile_Interrupt_Status_Register in
  let changeDetectReg := read_value h1 ChangeDetectStatusRegister in
  let h2 := read_next h1 ChangeDetectStatusRegister in
  let lineState := read_value h2 DI_ChangeDetectLatched_Register in
  let h3 := read_next h2 DI_ChangeDetectLatched_Register in
  let events :=
    [RegRead Volatile_Interrupt_Status_Register interruptStatus;
     RegRead ChangeDetectStatusRegister changeDetectReg;
     RegRead DI_ChangeDetectLatched_Register lineState;
     DpcQueued;
     RegWrite ChangeDetectIRQ_Register ChangeDetectIRQ_Acknowledge] in
  let w' :=
    mkWorld (write_next h3 ChangeDetectIRQ_Register
                        ChangeDetectIRQ_Acknowledge)
            (set_LatchedInputLineState (ctx w) lineState)
            (pending w) (trace w ++ events) in
  Z.testbit interruptStatus 31 = true ->
  Z.testbit changeDetectReg 0 = true ->
  Z.testbit changeDetectReg 1 = false ->
  OsrDioEvtInterruptIsr w = Ok true w'
  /\ LatchedInputLineState (ctx w') = lineState
  /\ OutputLineMask (ctx w') = OutputLineMask (ctx w)
  /\ SavedOutputLineState (ctx w') = SavedOutputLineState (ctx w)
  /\ DevBase (ctx w') = DevBase (ctx w)
  /\ MappedLength (ctx w') = MappedLength (ctx w)
  /\ length (filter is_dpc events) = 1%nat
  /\ writes_of events
     = [(ChangeDetectIRQ_Register, ChangeDetectIRQ_Acknowledge)]
  /\ ChangeDetectIRQ_Acknowledge = 2 ^ 0.
Proof.
  intros Hmap interruptStatus h1 changeDetectReg h2 lineState h3 events w'
         Hactive Hstatus Herror.
  split; [|repeat split; reflexivity].
  subst w'.
  unfold OsrDioEvtInterruptIsr.
  drv_step. fold interruptStatus h1.
  unfold Vol_Int. rewrite land_BIT_NUMBER_eq0 by lia.
  rewrite Hactive. cbn [negb].
  drv_step. fold changeDetectReg h2.
  unfold ChangeDetectStatus, ChangeDetectError.
  rewrite land_bit0_eq1, !land_BIT_NUMBER_eq0 by lia.
  rewrite Hstatus, Herror. cbn [negb andb when].
  erewrite bind_Ok.
  2:{ drv_step. fold lineState h3. drv_step. drv_step. reflexivity. }
  drv_step. drv_step.
  unfold ret. drv_trace. reflexivity.
Qed.

(** ** The deferred completion *)

(** C2: one run of the DPC.  On an empty queue it returns with the world
    untouched.  On a non-empty queue it removes the oldest request, leaves
    the others in order, and completes that request once: when its output
    buffer can be retrieved, with the current [LatchedInputLineState] stored
    in the buffer, success and the size of one result; when the retrieval
    fails, with the status the retrieval gave and zero bytes. *)
Theorem dpc_completes_oldest (w : @World HW) :
  (pending w = [] -> OsrDioEvtInterruptDpc w = Ok tt w)
  /\ (forall req rest,
        pending w = req :: rest ->
        NT_SUCCESS (output_buffer_status req sizeof_OSRDIO_CHANGE_DATA) = true ->
        let events :=
          [OutputStore req (LatchedInputLineState (ctx w));
           Completed req STATUS_SUCCESS sizeof_OSRDIO_CHANGE_DATA] in
        OsrDioEvtInterruptDpc w =
          Ok tt (mkWorld (hw w) (ctx w) rest (trace w ++ events))
        /\ length (filter is_completion events) = 1%nat)
  /\ (forall req rest,
        pending w = req :: rest ->
        NT_SUCCESS (output_buffer_status req sizeof_OSRDIO_CHANGE_DATA) = false ->
        let events :=
          [Completed req
                     (output_buffer_status req sizeof_OSRDIO_CHANGE_DATA) 0] in
        OsrDioEvtInterruptDpc w =
          Ok tt (mkWorld (hw w) (ctx w) rest (trace w ++ events))
        /\ filter is_store events = []).
Proof.
  unfold OsrDioEvtInterruptDpc, WdfIoQueueRetrieveNextRequest, bind.
  split; [|split].
  - intros ->. now destruct w.
  - intros req rest -> Hok. split; [|reflexivity].
    cbn [fst snd NT_SUCCESS STATUS_SUCCESS Z.leb Z.compare negb].
    unfold WdfRequestRetrieveOutputBuffer, ret.
    rewrite Hok.
    unfold getContext, WdfRequestCompleteWithInformation, emit.
    cbn [hw ctx pending trace]. drv_trace. reflexivity.
  - intros req rest -> Hfail. split; [|reflexivity].
    cbn [fst snd NT_SUCCESS STATUS_SUCCESS Z.leb Z.compare negb].
    unfold WdfRequestRetrieveOutputBuffer, ret.
    rewrite Hfail. reflexivity.
Qed.

(** ** Device control: writing the outputs *)

(** C3: with a non-zero [OutputLineMask], a write request carrying the
    value [v] writes exactly [v & OutputLineMask] to the output register
    and no other register; no bit outside the mask is set in the value
    written, whatever [v] is. *)
Theorem write_outputs_masked (w : World) (Request : WDFREQUEST)
    (OutputBufferLength InputBufferLength : Z) (v : ULONG) :
  DevBase (ctx w) <> nullptr ->
  OutputLineMask (ctx w) <> 0 ->
  RequestInputData Request = v ->
  sizeof_OSRDIO_WRITE_DATA <= RequestInputLength Request ->
  let asserted := Z.land v (OutputLineMask (ctx w)) in
  let events :=
    [RegWrite Static_Digital_Output_Register asserted;
     Completed Request STATUS_SUCCESS sizeof_OSRDIO_WRITE_DATA] in
  OsrDioEvtIoDeviceControl Request OutputBufferLength InputBufferLength
                           IOCTL_OSRDIO_WRITE w =
    Ok tt (mkWorld (write_next (hw w) Static_Digital_Output_Register asserted)
                   (ctx w) (pending w) (trace w ++ events))
  /\ writes_of events = [(Static_Digital_Output_Register, asserted)]
  /\ (forall i, Z.testbit (OutputLineMask (ctx w)) i = false ->
                Z.testbit asserted i = false).
Proof.
  intros Hmap Hmask Hv Hlen asserted events.
  split; [|split; [reflexivity | intros i; apply land_mask_bits]].
  unfold OsrDioEvtIoDeviceControl.
  change (IOCTL_OSRDIO_WRITE =? IOCTL_OSRDIO_READ) with false.
  rewrite Z.eqb_refl. cbv iota.
  erewrite bind_Ok.
  2:{ unfold ioctl_WRITE. drv_step.
      apply Z.eqb_neq in Hmask. rewrite Hmask.
      unfold WdfRequestRetrieveInputBuffer, input_buffer_status.
      apply Z.ltb_ge in Hlen. rewrite Hlen.
      drv_step. cbn [NT_SUCCESS STATUS_SUCCESS Z.leb Z.compare negb].
      drv_step. rewrite Hv. fold asserted.
      drv_step. reflexivity. }
  unfold WdfRequestCompleteWithInformation, emit.
  cbn [hw ctx pending trace]. drv_trace. reflexivity.
Qed.

(** C4: with [OutputLineMask = 0] a write request is completed with
    STATUS_INVALID_DEVICE_STATE and zero bytes; no register is read or
    written (the device is not even required to be mapped), and the device
    context and the pending queue are unchanged. *)
Theorem write_outputs_no_output_lines (w : World) (Request : WDFREQUEST)
    (OutputBufferLength InputBufferLength : Z) :
  OutputLineMask (ctx w) = 0 ->
  let events := [Completed Request STATUS_INVALID_DEVICE_STATE 0] in
  OsrDioEvtIoDeviceControl Request OutputBufferLength InputBufferLength
                           IOCTL_OSRDIO_WRITE w =
    Ok tt (mkWorld (hw w) (ctx w) (pending w) (trace w ++ events))
  /\ filter is_reg_access events = []
  /\ NT_SUCCESS STATUS_INVALID_DEVICE_STATE = false.
Proof.
  intros Hmask events.
  split; [|split; reflexivity].
  unfold OsrDioEvtIoDeviceControl.
  change (IOCTL_OSRDIO_WRITE =? IOCTL_OSRDIO_READ) with false.
  rewrite Z.eqb_refl. cbv iota.
  erewrite bind_Ok.
  2:{ unfold ioctl_WRITE. drv_step. rewrite Hmask. reflexivity. }
  reflexivity.
Qed.

(** ** Device control: configuring the output lines *)

Lemma program_masks_run (w : World) :
  DevBase (ctx w) <> nullptr ->
  let m := OutputLineMask (ctx w) in
  let writes :=
    [(DI_FilterRegister_Port0and1, Filter_Large_All_Lines);
     (DI_FilterRegister_Port2and3, Filter_Large_All_Lines);
     (DIO_Direction_Register, m);
     (DI_ChangeIrqRE_Register, ulong_not m);
     (DI_ChangeIrqFE_Register, ulong_not m)] in
  DioUtilProgramLineDirectionAndChangeMasks w =
    Ok tt (mkWorld (apply_writes (hw w) writes) (ctx w) (pending w)
                   (trace w ++ map (fun rv => RegWrite (fst rv) (snd rv))
                                   writes)).
Proof.
  intros Hmap m writes.
  unfold DioUtilProgramLineDirectionAndChangeMasks.
  do 7 drv_step.
  rewrite run_write by (cbn; assumption).
  cbn [hw ctx pending trace]. drv_trace. reflexivity.
Qed.

(** C5: a set-outputs request carrying the mask [m] stores [m] in
    [OutputLineMask] and then programs the device: after the two filter
    registers, the direction register is written with [m], and only then
    the rising-edge and the falling-edge mask registers, each with the
    bitwise complement of [m] on 32 bits. *)
Theorem set_outputs_programs_masks (w : World) (Request : WDFREQUEST)
    (OutputBufferLength InputBufferLength : Z) (m : ULONG) :
  DevBase (ctx w) <> nullptr ->
  RequestInputData Request = m ->
  sizeof_OSRDIO_SET_OUTPUTS_DATA <= RequestInputLength Request ->
  let complement := ulong_not m in
  let events :=
    [RegWrite DI_FilterRegister_Port0and1 Filter_Large_All_Lines;
     RegWrite DI_FilterRegister_Port2and3 Filter_Large_All_Lines;
     RegWrite DIO_Direction_Register m;
     RegWrite DI_ChangeIrqRE_Register complement;
     RegWrite DI_ChangeIrqFE_Register complement;
     Completed Request STATUS_SUCCESS sizeof_OSRDIO_SET_OUTPUTS_DATA] in
  OsrDioEvtIoDeviceControl Request OutputBufferLength InputBufferLength
                           IOCTL_OSRDIO_SET_OUTPUTS w =
    Ok tt (mkWorld (apply_writes (hw w) (writes_of events))
                   (set_OutputLineMask (ctx w) m) (pending w)
                   (trace w ++ events))
  /\ is_ULONG complement
  /\ (forall i, 0 <= i < 32 ->
                Z.testbit complement i = negb (Z.testbit m i))
  /\ (is_ULONG m -> complement = ULONG_MAX - m).
Proof.
  intros Hmap Hm Hlen complement events.
  split; [|split; [apply ulong_not_range
                  |split; [intros i; apply ulong_not_bits
                          |apply ulong_not_sub]]].
  unfold OsrDioEvtIoDeviceControl.
  change (IOCTL_OSRDIO_SET_OUTPUTS =? IOCTL_OSRDIO_READ) with false.
  change (IOCTL_OSRDIO_SET_OUTPUTS =? IOCTL_OSRDIO_WRITE) with false.
  rewrite Z.eqb_refl. cbv iota.
  erewrite bind_Ok.
  2:{ unfold ioctl_SET_OUTPUTS, WdfRequestRetrieveInputBuffer,
        input_buffer_status.
      apply Z.ltb_ge in Hlen. rewrite Hlen.
      drv_step. cbn [NT_SUCCESS STATUS_SUCCESS Z.leb Z.compare negb].
      drv_step. drv_step.
      erewrite bind_Ok by (apply program_masks_run; cbn; assumption).
      reflexivity. }
  unfold WdfRequestCompleteWithInformation, emit.
  cbn [hw ctx pending trace set_OutputLineMask OutputLineMask map fst snd].
  rewrite Hm. drv_trace. reflexivity.
Qed.

(** ** Device control: waiting for a change *)

Lemma waitfor_change_run (w : @World HW) (Request : WDFREQUEST)
    (OutputBufferLength InputBufferLength : Z) :
  OsrDioEvtIoDeviceControl Request OutputBufferLength InputBufferLength
                           IOCTL_OSRDIO_WAITFOR_CHANGE w =
    if ulong_not (OutputLineMask (ctx w)) =? 0
    then Ok tt (mkWorld (hw w) (ctx w) (pending w)
                        (trace w ++ [Completed Request STATUS_NONE_MAPPED 0]))
    else if OutputBufferLength <? sizeof_OSRDIO_CHANGE_DATA
    then Ok tt (mkWorld (hw w) (ctx w) (pending w)
                        (trace w ++ [Completed Request
                                               STATUS_INVALID_BUFFER_SIZE 0]))
    else Ok tt (mkWorld (hw w) (ctx w) (pending w ++ [Request]) (trace w)).
Proof.
  unfold OsrDioEvtIoDeviceControl.
  change (IOCTL_OSRDIO_WAITFOR_CHANGE =? IOCTL_OSRDIO_READ) with false.
  change (IOCTL_OSRDIO_WAITFOR_CHANGE =? IOCTL_OSRDIO_WRITE) with false.
  change (IOCTL_OSRDIO_WAITFOR_CHANGE =? IOCTL_OSRDIO_SET_OUTPUTS) with false.
  rewrite Z.eqb_refl. cbv iota.
  unfold ioctl_WAITFOR_CHANGE, bind, getContext.
  destruct (ulong_not (OutputLineMask (ctx w)) =? 0); [reflexivity|].
  destruct (OutputBufferLength <? sizeof_OSRDIO_CHANGE_DATA); reflexivity.
Qed.

Lemma trace_grew (t : list Event) (e : Event) : t ++ [e] <> t.
Proof.
  intros H. apply (f_equal (@length Event)) in H.
  rewrite length_app in H. cbn in H. lia.
Qed.

(** C6: a wait-for-change request is failed with STATUS_NONE_MAPPED exactly
    when [OutputLineMask] is 0xFFFFFFFF; with any other mask and an output
    buffer length of at least one result, the request joins the tail of the
    pending queue and is left in progress. *)
Theorem waitfor_change_no_input_lines_iff (w : @World HW)
    (Request : WDFREQUEST) (OutputBufferLength InputBufferLength : Z) :
  is_ULONG (OutputLineMask (ctx w)) ->
  let run :=
    OsrDioEvtIoDeviceControl Request OutputBufferLength InputBufferLength
                             IOCTL_OSRDIO_WAITFOR_CHANGE w in
  (completes_with run w Request STATUS_NONE_MAPPED 0
   <-> OutputLineMask (ctx w) = 0xFFFFFFFF)
  /\ (OutputLineMask (ctx w) <> 0xFFFFFFFF ->
      sizeof_OSRDIO_CHANGE_DATA <= OutputBufferLength ->
      run = Ok tt (mkWorld (hw w) (ctx w) (pending w ++ [Request]) (trace w))).
Proof.
  intros Hrange run. subst run. unfold completes_with.
  rewrite waitfor_change_run, ulong_not_zero_iff by assumption.
  unfold ULONG_MAX.
  destruct (Z.eqb_spec (OutputLineMask (ctx w)) 0xFFFFFFFF) as [Hall|Hsome].
  - split; [tauto | contradiction].
  - split.
    + split; [|contradiction].
      destruct (OutputBufferLength <? sizeof_OSRDIO_CHANGE_DATA);
        intros H; exfalso.
      * injection H as H. apply app_inv_head in H. discriminate H.
      * injection H as _ H. symmetry in H. now apply trace_grew in H.
    + intros _ Hlen. apply Z.ltb_ge in Hlen. now rewrite Hlen.
Qed.

(** C10: the wait-for-change checks run in a fixed order.  With every line
    an output and an output buffer too short, the request is failed with
    STATUS_NONE_MAPPED and not with STATUS_INVALID_BUFFER_SIZE; with some
    input line and a buffer too short it is failed with
    STATUS_INVALID_BUFFER_SIZE.  Whenever either check fails, the run does
    nothing but complete the request with a failure status and zero bytes:
    nothing is enqueued, no register is touched and the device context is
    unchanged. *)
Theorem waitfor_change_check_order (w : @World HW)
    (Request : WDFREQUEST) (OutputBufferLength InputBufferLength : Z) :
  is_ULONG (OutputLineMask (ctx w)) ->
  let run :=
    OsrDioEvtIoDeviceControl Request OutputBufferLength InputBufferLength
                             IOCTL_OSRDIO_WAITFOR_CHANGE w in
  (OutputLineMask (ctx w) = 0xFFFFFFFF ->
   OutputBufferLength < sizeof_OSRDIO_CHANGE_DATA ->
   completes_with run w Request STATUS_NONE_MAPPED 0
   /\ ~ completes_with run w Request STATUS_INVALID_BUFFER_SIZE 0)
  /\ (OutputLineMask (ctx w) <> 0xFFFFFFFF ->
      OutputBufferLength < sizeof_OSRDIO_CHANGE_DATA ->
      completes_with run w Request STATUS_INVALID_BUFFER_SIZE 0)
  /\ (OutputLineMask (ctx w) = 0xFFFFFFFF
      \/ OutputBufferLength < sizeof_OSRDIO_CHANGE_DATA ->
      exists status,
        NT_SUCCESS status = false
        /\ completes_with run w Request status 0).
Proof.
  intros Hrange run. subst run. unfold completes_with.
  rewrite waitfor_change_run, ulong_not_zero_iff by assumption.
  unfold ULONG_MAX.
  destruct (Z.eqb_spec (OutputLineMask (ctx w)) 0xFFFFFFFF) as [Hall|Hsome].
  - split; [|split].
    + intros _ _. split; [reflexivity|].
      intros H. injection H as H. apply app_inv_head in H. discriminate H.
    + contradiction.
    + intros _. exists STATUS_NONE_MAPPED. split; reflexivity.
  - split; [contradiction|split].
    + intros _ Hlen. apply Z.ltb_lt in Hlen. now rewrite Hlen.
    + intros [Hall|Hlen]; [contradiction|].
      apply Z.ltb_lt in Hlen. rewrite Hlen.
      exists STATUS_INVALID_BUFFER_SIZE. split; reflexivity.
Qed.

(** ** Power transitions *)

(** C7: power-down reads the input register and stores the value read,
    masked with [OutputLineMask], in [SavedOutputLineState]; power-up
    writes [SavedOutputLineState] to the output register.  Run back to
    back, the output register is last written with the input-register
    value at power-down masked with the [OutputLineMask] of that moment. *)
Theorem power_cycle_restores_masked_outputs (w : World) :
  DevBase (ctx w) <> nullptr ->
  let lines := read_value (hw w) Static_Digital_Input_Register in
  let h1 := read_next (hw w) Static_Digital_Input_Register in
  let saved := Z.land lines (OutputLineMask (ctx w)) in
  let down := mkWorld h1 (set_SavedOutputLineState (ctx w) saved) (pending w)
                      (trace w ++ [RegRead Static_Digital_Input_Register
                                           lines]) in
  let events := [RegRead Static_Digital_Input_Register lines;
                 RegWrite Static_Digital_Output_Register saved] in
  OsrDioEvtDeviceD0Exit w = Ok STATUS_SUCCESS down
  /\ OsrDioEvtDeviceD0Entry down =
       Ok STATUS_SUCCESS
          (mkWorld (write_next h1 Static_Digital_Output_Register
                               (SavedOutputLineState (ctx down)))
                   (ctx down) (pending down)
                   (trace down ++ [RegWrite Static_Digital_Output_Register
                                            (SavedOutputLineState (ctx down))]))
  /\ power_down_then_up w =
       Ok STATUS_SUCCESS
          (mkWorld (write_next h1 Static_Digital_Output_Register saved)
                   (set_SavedOutputLineState (ctx w) saved) (pending w)
                   (trace w ++ events))
  /\ last_written (reg_offset Static_Digital_Output_Register) events
     = Some saved.
Proof.
  intros Hmap lines h1 saved down events.
  assert (Hexit : OsrDioEvtDeviceD0Exit w = Ok STATUS_SUCCESS down).
  { unfold OsrDioEvtDeviceD0Exit. do 3 drv_step. reflexivity. }
  assert (Hentry : OsrDioEvtDeviceD0Entry down =
                   Ok STATUS_SUCCESS
                      (mkWorld (write_next h1 Static_Digital_Output_Register
                                           saved)
                               (ctx down) (pending down)
                               (trace down ++
                                  [RegWrite Static_Digital_Output_Register
                                            saved]))).
  { unfold OsrDioEvtDeviceD0Entry. do 2 drv_step. reflexivity. }
  repeat split.
  - exact Hexit.
  - exact Hentry.
  - unfold power_down_then_up. erewrite bind_Ok by exact Hexit.
    rewrite Hentry. subst down. cbn [hw ctx pending trace].
    drv_trace. reflexivity.
Qed.

(** ** Device control: reading the line state *)

(** C9 (amended): with the registers mapped, a read-line-state request
    whose output buffer can be retrieved succeeds and returns the raw value
    of the input register; a request whose output buffer cannot be
    retrieved is completed with the status of the retrieval and zero bytes,
    and the input register is not read. *)
Theorem read_line_state (w : World) (Request : WDFREQUEST)
    (OutputBufferLength InputBufferLength : Z) :
  DevBase (ctx w) <> nullptr ->
  let status := output_buffer_status Request sizeof_OSRDIO_READ_DATA in
  (NT_SUCCESS status = true ->
   read_line_state_succeeds w Request OutputBufferLength InputBufferLength)
  /\ (NT_SUCCESS status = false ->
      completes_with
        (OsrDioEvtIoDeviceControl Request OutputBufferLength InputBufferLength
                                  IOCTL_OSRDIO_READ w)
        w Request status 0).
Proof.
  intros Hmap status.
  unfold read_line_state_succeeds, completes_with, OsrDioEvtIoDeviceControl.
  rewrite Z.eqb_refl.
  split; intros Hst.
  - erewrite bind_Ok.
    2:{ unfold ioctl_READ, WdfRequestRetrieveOutputBuffer.
        drv_step. fold status. rewrite Hst. cbn [negb].
        do 2 drv_step. reflexivity. }
    unfold WdfRequestCompleteWithInformation, emit.
    cbn [hw ctx pending trace]. drv_trace. reflexivity.
  - erewrite bind_Ok.
    2:{ unfold ioctl_READ, WdfRequestRetrieveOutputBuffer.
        drv_step. fold status. rewrite Hst. reflexivity. }
    reflexivity.
Qed.

End Properties.

(** * The theorems at concrete inputs *)

(** An idle device that is asked for an interrupt it did not raise. *)
Lemma isr_not_mine_witness :
  let w := sim_world sim_idle (mapped_context 0) [request_out 7] in
  OsrDioEvtInterruptIsr w =
    Ok false
       (mkWorld sim_idle (mapped_context 0) [request_out 7]
                [RegRead Volatile_Interrupt_Status_Register 0]).
Proof.
  intro w.
  assert (Hmap : DevBase (ctx w) <> nullptr) by (vm_compute; discriminate).
  assert (Hbit : Z.testbit (read_value (hw w)
                                       Volatile_Interrupt_Status_Register) 31
                 = false) by reflexivity.
  exact (proj1 (isr_not_mine w Hmap Hbit)).
Defined.

(** A device that latched 0xCAFEBABE and raised its interrupt. *)
Lemma isr_change_detected_witness :
  let w := sim_world sim_changed (mapped_context 0) [request_out 7] in
  OsrDioEvtInterruptIsr w =
    Ok true
       (mkWorld (mkSim 0xCAFEBABE 0 0 0 0 0xCAFEBABE)
                (mkContext 1 2 0xFFFFF78000000000 DIO_BAR_SIZE 3 0 0
                           0xCAFEBABE)
                [request_out 7]
                [RegRead Volatile_Interrupt_Status_Register 0x80000000;
                 RegRead ChangeDetectStatusRegister 1;
                 RegRead DI_ChangeDetectLatched_Register 0xCAFEBABE;
                 DpcQueued;
                 RegWrite ChangeDetectIRQ_Register 1]).
Proof.
  intro w.
  assert (Hmap : DevBase (ctx w) <> nullptr) by (vm_compute; discriminate).
  exact (proj1 (isr_change_detected w Hmap eq_refl eq_refl eq_refl)).
Defined.

(** Two waiters, served oldest first; a waiter whose buffer cannot be
    retrieved; nobody waiting. *)
Lemma dpc_completes_oldest_witness :
  let c := set_LatchedInputLineState (mapped_context 0) 0xCAFEBABE in
  OsrDioEvtInterruptDpc (sim_world sim_idle c [request_out 7; request_out 8]) =
    Ok tt (mkWorld sim_idle c [request_out 8]
                   [OutputStore (request_out 7) 0xCAFEBABE;
                    Completed (request_out 7) STATUS_SUCCESS 4])
  /\ OsrDioEvtInterruptDpc (sim_world sim_idle c [request_bare 7; request_out 8]) =
       Ok tt (mkWorld sim_idle c [request_out 8]
                      [Completed (request_bare 7) STATUS_BUFFER_TOO_SMALL 0])
  /\ OsrDioEvtInterruptDpc (sim_world sim_idle c []) =
       Ok tt (sim_world sim_idle c []).
Proof.
  intro c. split; [|split].
  - exact (proj1 (proj1 (proj2 (dpc_completes_oldest
                                  (sim_world sim_idle c
                                             [request_out 7; request_out 8])))
                        (request_out 7) [request_out 8] eq_refl eq_refl)).
  - exact (proj1 (proj2 (proj2 (dpc_completes_oldest
                                  (sim_world sim_idle c
                                             [request_bare 7; request_out 8])))
                        (request_bare 7) [request_out 8] eq_refl eq_refl)).
  - exact (proj1 (dpc_completes_oldest (sim_world sim_idle c [])) eq_refl).
Defined.

(** Mask 0x0F, requested 0xA5: only 0x05 is asserted. *)
Lemma write_outputs_masked_witness :
  let w := sim_world sim_idle (mapped_context 0x0F) [] in
  OsrDioEvtIoDeviceControl (request_in 9 0xA5) 0 4 IOCTL_OSRDIO_WRITE w =
    Ok tt (mkWorld (mkSim 0 0x05 0 0 0 0) (mapped_context 0x0F) []
                   [RegWrite Static_Digital_Output_Register 0x05;
                    Completed (request_in 9 0xA5) STATUS_SUCCESS 4]).
Proof.
  intro w.
  assert (Hmap : DevBase (ctx w) <> nullptr) by (vm_compute; discriminate).
  assert (Hmask : OutputLineMask (ctx w) <> 0) by (vm_compute; discriminate).
  assert (Hlen : sizeof_OSRDIO_WRITE_DATA
                 <= RequestInputLength (request_in 9 0xA5))
    by (vm_compute; discriminate).
  exact (proj1 (write_outputs_masked w (request_in 9 0xA5) 0 4 0xA5
                                     Hmap Hmask eq_refl Hlen)).
Defined.

(** No output line configured, and the registers not even mapped. *)
Lemma write_outputs_no_output_lines_witness :
  let w := sim_world sim_idle (unmapped_context 0) [] in
  OsrDioEvtIoDeviceControl (request_in 9 0xA5) 0 4 IOCTL_OSRDIO_WRITE w =
    Ok tt (mkWorld sim_idle (unmapped_context 0) []
                   [Completed (request_in 9 0xA5)
                              STATUS_INVALID_DEVICE_STATE 0]).
Proof.
  intro w.
  exact (proj1 (write_outputs_no_output_lines w (request_in 9 0xA5) 0 4
                                              eq_refl)).
Defined.

(** Lines 0 to 3 become outputs. *)
Lemma set_outputs_programs_masks_witness :
  let w := sim_world sim_idle (mapped_context 0) [] in
  OsrDioEvtIoDeviceControl (request_in 9 0x0F) 0 4 IOCTL_OSRDIO_SET_OUTPUTS w =
    Ok tt (mkWorld (mkSim 0 0 0x0F 0 0 0) (mapped_context 0x0F) []
                   [RegWrite DI_FilterRegister_Port0and1 0xFFFFFFFF;
                    RegWrite DI_FilterRegister_Port2and3 0xFFFFFFFF;
                    RegWrite DIO_Direction_Register 0x0F;
                    RegWrite DI_ChangeIrqRE_Register 0xFFFFFFF0;
                    RegWrite DI_ChangeIrqFE_Register 0xFFFFFFF0;
                    Completed (request_in 9 0x0F) STATUS_SUCCESS 4]).
Proof.
  intro w.
  assert (Hmap : DevBase (ctx w) <> nullptr) by (vm_compute; discriminate).
  assert (Hlen : sizeof_OSRDIO_SET_OUTPUTS_DATA
                 <= RequestInputLength (request_in 9 0x0F))
    by (vm_compute; discriminate).
  exact (proj1 (set_outputs_programs_masks w (request_in 9 0x0F) 0 4 0x0F
                                           Hmap eq_refl Hlen)).
Defined.

(** Some input lines and room for a result: the request is queued; every
    line an output: the request is refused. *)
Lemma waitfor_change_no_input_lines_iff_witness :
  OsrDioEvtIoDeviceControl (request_out 9) 4 0 IOCTL_OSRDIO_WAITFOR_CHANGE
                           (sim_world sim_idle (mapped_context 0x0F)
                                      [request_out 8]) =
    Ok tt (mkWorld sim_idle (mapped_context 0x0F)
                   [request_out 8; request_out 9] [])
  /\ OsrDioEvtIoDeviceControl (request_out 9) 4 0 IOCTL_OSRDIO_WAITFOR_CHANGE
                              (sim_world sim_idle (mapped_context 0xFFFFFFFF)
                                         [request_out 8]) =
       Ok tt (mkWorld sim_idle (mapped_context 0xFFFFFFFF) [request_out 8]
                      [Completed (request_out 9) STATUS_NONE_MAPPED 0]).
Proof.
  split.
  - assert (Hrange : is_ULONG (OutputLineMask (mapped_context 0x0F)))
      by (unfold is_ULONG, ULONG_MAX; cbn; lia).
    assert (Hmask : OutputLineMask (mapped_context 0x0F) <> 0xFFFFFFFF)
      by (vm_compute; discriminate).
    assert (Hlen : sizeof_OSRDIO_CHANGE_DATA <= 4)
      by (vm_compute; discriminate).
    exact (proj2 (waitfor_change_no_input_lines_iff
                    (sim_world sim_idle (mapped_context 0x0F) [request_out 8])
                    (request_out 9) 4 0 Hrange)
                 Hmask Hlen).
  - assert (Hrange : is_ULONG (OutputLineMask (mapped_context 0xFFFFFFFF)))
      by (unfold is_ULONG, ULONG_MAX; cbn; lia).
    exact (proj2 (proj1 (waitfor_change_no_input_lines_iff
                           (sim_world sim_idle (mapped_context 0xFFFFFFFF)
                                      [request_out 8])
                           (request_out 9) 4 0 Hrange))
                 eq_refl).
Defined.

(** Every line an output and no room for a result: the first check wins. *)
Lemma waitfor_change_check_order_witness :
  let w := sim_world sim_idle (mapped_context 0xFFFFFFFF) [request_out 8] in
  completes_with
    (OsrDioEvtIoDeviceControl (request_bare 9) 0 0 IOCTL_OSRDIO_WAITFOR_CHANGE w)
    w (request_bare 9) STATUS_NONE_MAPPED 0.
Proof.
  intro w.
  assert (Hrange : is_ULONG (OutputLineMask (ctx w)))
    by (unfold is_ULONG, ULONG_MAX; cbn; lia).
  assert (Hlen : 0 < sizeof_OSRDIO_CHANGE_DATA) by reflexivity.
  exact (proj1 (proj1 (waitfor_change_check_order w (request_bare 9) 0 0
                                                  Hrange)
                      eq_refl Hlen)).
Defined.

(** Outputs 0x0F asserting 0x05, inputs wired to 0xA0: 0x05 is restored. *)
Lemma power_cycle_restores_masked_outputs_witness :
  let b := mkSim 0xA0 0x05 0x0F 0 0 0 in
  power_down_then_up (sim_world b (mapped_context 0x0F) []) =
    Ok STATUS_SUCCESS
       (mkWorld b (set_SavedOutputLineState (mapped_context 0x0F) 0x05) []
                [RegRead Static_Digital_Input_Register 0xA5;
                 RegWrite Static_Digital_Output_Register 0x05]).
Proof.
  intro b.
  assert (Hmap : DevBase (ctx (sim_world b (mapped_context 0x0F) []))
                 <> nullptr) by (vm_compute; discriminate).
  exact (proj1 (proj2 (proj2 (power_cycle_restores_masked_outputs
                                (sim_world b (mapped_context 0x0F) [])
                                Hmap)))).
Defined.

(** A read with room for the result. *)
Lemma read_line_state_witness :
  let b := mkSim 0xA0 0x05 0x0F 0 0 0 in
  read_line_state_succeeds (sim_world b (mapped_context 0x0F) [])
                           (request_out 9) 4 0.
Proof.
  intro b.
  assert (Hmap : DevBase (ctx (sim_world b (mapped_context 0x0F) []))
                 <> nullptr) by (vm_compute; discriminate).
  exact (proj1 (read_line_state (sim_world b (mapped_context 0x0F) [])
                                (request_out 9) 4 0 Hmap)
               eq_refl).
Defined.

(** C9 as stated fails: with the registers mapped, a read-line-state
    request that leaves no room for the result is completed with
    STATUS_BUFFER_TOO_SMALL, a failure status, and zero bytes. *)
Lemma read_line_state_counterexample :
  let w := sim_world sim_idle (mapped_context 0) [] in
  DevBase (ctx w) <> nullptr
  /\ OsrDioEvtIoDeviceControl (request_bare 9) 0 0 IOCTL_OSRDIO_READ w =
       Ok tt (mkWorld sim_idle (mapped_context 0) []
                      [Completed (request_bare 9) STATUS_BUFFER_TOO_SMALL 0])
  /\ NT_SUCCESS STATUS_BUFFER_TOO_SMALL = false
  /\ ~ read_line_state_succeeds w (request_bare 9) 0 0.
Proof.
  intro w. repeat split.
  - vm_compute. discriminate.
  - intros H. vm_compute in H. discriminate H.
Qed.

(** * Scenarios *)

(** With lines 0-3 as outputs asserting 0x5 and the other lines wired to
    0xABCDEFF0, a read returns 0xABCDEFF5: the low four bits are the
    asserted outputs, the rest is the wiring. *)
Example write_then_read_returns_outputs_and_wiring :
  exists w',
    scenario_write_then_read
      (sim_world (mkSim 0xABCDEFF0 0 0 0 0 0) (mapped_context 0) [])
    = Ok tt w'
    /\ filter is_store (trace w') = [OutputStore (request_out 3) 0xABCDEFF5]
    /\ pending w' = [].
Proof. eexists. split; [vm_compute; reflexivity | split; reflexivity]. Qed.

(** A queued wait is completed with the latched value 0xCAFEBABE and leaves
    the queue. *)
Example wait_then_interrupt_delivers_latched_state :
  exists w',
    scenario_wait_then_interrupt
      (sim_world sim_changed (mapped_context 0) [])
    = Ok tt w'
    /\ filter is_store (trace w') = [OutputStore (request_out 4) 0xCAFEBABE]
    /\ filter is_completion (trace w')
       = [Completed (request_out 4) STATUS_SUCCESS 4]
    /\ pending w' = [].
Proof. eexists. split; [vm_compute; reflexivity | repeat split]. Qed.

(** Mapping absence is not reported as a status: a read-line-state request
    on a device whose registers are not mapped faults at the register
    access. *)
Example read_line_state_unmapped_faults :
  OsrDioEvtIoDeviceControl (request_out 9) 4 0 IOCTL_OSRDIO_READ
                           (sim_world sim_idle (unmapped_context 0) [])
  = BugCheck.
Proof. reflexivity. Qed.

(** * Further properties of the driver *)

Lemma last_written_app (off : Z) (t1 t2 : list Event) :
  last_written off (t1 ++ t2) =
    match last_written off t2 with
    | Some v => Some v
    | None => last_written off t1
    end.
Proof.
  induction t1 as [|e t1 IH]; cbn [app last_written].
  - now destruct (last_written off t2).
  - destruct e; try exact IH.
    rewrite IH. now destruct (last_written off t2).
Qed.

Lemma writes_of_app (t1 t2 : list Event) :
  writes_of (t1 ++ t2) = writes_of t1 ++ writes_of t2.
Proof.
  induction t1 as [|e t1 IH]; [reflexivity|].
  destruct e; cbn [app writes_of]; now rewrite ?IH.
Qed.

Lemma land_le_r (a b : Z) : 0 <= a -> 0 <= b -> Z.land a b <= b.
Proof.
  intros Ha Hb.
  rewrite <- (Z2N.id a), <- (Z2N.id b) by assumption.
  rewrite <- N2Z.inj_land. apply N2Z.inj_le, N.land_le_r.
Qed.

Lemma bits_value_spec (positions : list Z) (i : Z) :
  Forall (fun p => 0 <= p) positions ->
  Z.testbit (bits_value positions) i = existsb (fun p => i =? p) positions.
Proof.
  induction 1 as [|p rest Hp _ IH]; cbn [bits_value existsb].
  - apply Z.bits_0.
  - rewrite Z.lor_spec, IH. f_equal.
    destruct (Z_lt_le_dec i 0) as [Hneg|Hpos].
    + rewrite Z.testbit_neg_r by assumption.
      symmetry. apply Z.eqb_neq. lia.
    + rewrite Z.pow2_bits_eqb by assumption. apply Z.eqb_sym.
Qed.

Lemma set_LatchedInputLineState_same (c : OSRDIO_DEVICE_CONTEXT) :
  set_LatchedInputLineState c (LatchedInputLineState c) = c.
Proof. now destruct c. Qed.

Section MoreProperties.

Context {HW : Type} {bus : RegisterInterface HW}.

Ltac run_step :=
  first
    [ erewrite bind_Ok by (apply run_read; cbn; assumption)
    | erewrite bind_Ok by (apply run_write; cbn; assumption)
    | erewrite bind_Ok by reflexivity
    | rewrite run_write by (cbn; assumption)
    | rewrite run_read by (cbn; assumption) ];
  cbn [hw ctx pending trace].

Ltac run_trace := rewrite <- ?app_assoc; cbn [app].

(** ** The interrupt service routine, every path *)

(** The ISR on a device that signals its interrupt, in closed form. *)
Lemma isr_run (w : World) :
  DevBase (ctx w) <> nullptr ->
  let s := read_value (hw w) Volatile_Interrupt_Status_Register in
  let h1 := read_next (hw w) Volatile_Interrupt_Status_Register in
  let c := read_value h1 ChangeDetectStatusRegister in
  let h2 := read_next h1 ChangeDetectStatusRegister in
  let l := read_value h2 DI_ChangeDetectLatched_Register in
  let h3 := read_next h2 DI_ChangeDetectLatched_Register in
  let deliver := Z.testbit c 0 && negb (Z.testbit c 1) in
  let acks :=
    (if Z.testbit c 0
     then [RegWrite ChangeDetectIRQ_Register ChangeDetectIRQ_Acknowledge]
     else [])
    ++ (if Z.testbit c 1
        then [RegWrite ChangeDetectIRQ_Register
                       ChangeDetectErrorIRQ_Acknowledge]
        else []) in
  Z.testbit s 31 = true ->
  OsrDioEvtInterruptIsr w =
    Ok true
       (mkWorld (apply_writes (if deliver then h3 else h2) (writes_of acks))
                (if deliver then set_LatchedInputLineState (ctx w) l
                 else ctx w)
                (pending w)
                (trace w
                 ++ [RegRead Volatile_Interrupt_Status_Register s;
                     RegRead ChangeDetectStatusRegister c]
                 ++ (if deliver
                     then [RegRead DI_ChangeDetectLatched_Register l;
                           DpcQueued]
                     else [])
                 ++ acks)).
Proof.
  intros Hmap s h1 c h2 l h3 deliver acks Hactive.
  unfold OsrDioEvtInterruptIsr.
  run_step. fold s h1.
  unfold Vol_Int. rewrite land_BIT_NUMBER_eq0 by lia.
  rewrite Hactive. cbn [negb].
  run_step. fold c h2.
  unfold ChangeDetectStatus, ChangeDetectError.
  rewrite land_bit0_eq1, !land_BIT_NUMBER_eq0 by lia.
  subst deliver acks.
  destruct (Z.testbit c 0), (Z.testbit c 1); cbn [negb andb when].
  - run_step. run_step. run_step. unfold ret. run_trace. reflexivity.
  - erewrite bind_Ok.
    2:{ run_step. fold l h3. run_step. run_step. reflexivity. }
    run_step. run_step. unfold ret. run_trace. reflexivity.
  - run_step. run_step. run_step. unfold ret. run_trace. reflexivity.
  - run_step. run_step. run_step. unfold ret. run_trace. reflexivity.
Qed.

Lemma isr_run_not_mine (w : World) :
  DevBase (ctx w) <> nullptr ->
  let s := read_value (hw w) Volatile_Interrupt_Status_Register in
  Z.testbit s 31 = false ->
  OsrDioEvtInterruptIsr w =
    Ok false
       (mkWorld (read_next (hw w) Volatile_Interrupt_Status_Register)
                (ctx w) (pending w)
                (trace w ++ [RegRead Volatile_Interrupt_Status_Register s])).
Proof.
  intros Hmap s Hbit.
  unfold OsrDioEvtInterruptIsr.
  run_step. fold s.
  unfold Vol_Int. rewrite land_BIT_NUMBER_eq0 by lia.
  now rewrite Hbit.
Qed.

(** X1: when the change-detect status register shows the error bit, the
    ISR delivers nothing, whether or not the status bit is set as well: the
    latched-input register is not read, [LatchedInputLineState] keeps its
    value and no DPC is queued.  The conditions that are set are still
    acknowledged, the status condition (if set) before the error. *)
Theorem isr_error_suppresses_delivery (w : World) :
  DevBase (ctx w) <> nullptr ->
  let s := read_value (hw w) Volatile_Interrupt_Status_Register in
  let h1 := read_next (hw w) Volatile_Interrupt_Status_Register in
  let c := read_value h1 ChangeDetectStatusRegister in
  let h2 := read_next h1 ChangeDetectStatusRegister in
  let acks :=
    (if Z.testbit c 0
     then [RegWrite ChangeDetectIRQ_Register ChangeDetectIRQ_Acknowledge]
     else [])
    ++ [RegWrite ChangeDetectIRQ_Register ChangeDetectErrorIRQ_Acknowledge] in
  let events :=
    [RegRead Volatile_Interrupt_Status_Register s;
     RegRead ChangeDetectStatusRegister c] ++ acks in
  Z.testbit s 31 = true ->
  Z.testbit c 1 = true ->
  OsrDioEvtInterruptIsr w =
    Ok true (mkWorld (apply_writes h2 (writes_of acks)) (ctx w) (pending w)
                     (trace w ++ events))
  /\ filter is_dpc events = []
  /\ (forall v, ~ In (RegRead DI_ChangeDetectLatched_Register v) events).
Proof.
  intros Hmap s h1 c h2 acks events Hactive Herror.
  pose proof (isr_run w Hmap Hactive) as Hrun.
  cbv zeta in Hrun. fold s h1 c h2 in Hrun.
  rewrite Herror in Hrun. rewrite andb_false_r in Hrun.
  subst events acks.
  split; [exact Hrun|].
  destruct (Z.testbit c 0); cbn;
    (split; [reflexivity|intros v]; intuition discriminate).
Qed.

(** X2: when the device signals its interrupt but the change-detect status
    register shows neither the status nor the error bit, the ISR still
    claims the interrupt (returns TRUE) and does nothing else: no register
    is written, no DPC is queued and the device context is unchanged. *)
Theorem isr_nothing_pending (w : World) :
  DevBase (ctx w) <> nullptr ->
  let s := read_value (hw w) Volatile_Interrupt_Status_Register in
  let h1 := read_next (hw w) Volatile_Interrupt_Status_Register in
  let c := read_value h1 ChangeDetectStatusRegister in
  let h2 := read_next h1 ChangeDetectStatusRegister in
  Z.testbit s 31 = true ->
  Z.testbit c 0 = false ->
  Z.testbit c 1 = false ->
  OsrDioEvtInterruptIsr w =
    Ok true (mkWorld h2 (ctx w) (pending w)
                     (trace w ++ [RegRead Volatile_Interrupt_Status_Register s;
                                  RegRead ChangeDetectStatusRegister c])).
Proof.
  intros Hmap s h1 c h2 Hactive Hstatus Herror.
  pose proof (isr_run w Hmap Hactive) as Hrun.
  cbv zeta in Hrun. fold s h1 c h2 in Hrun.
  rewrite Hstatus, Herror in Hrun. exact Hrun.
Qed.

(** X3: on a mapped device the ISR never faults and, whatever the device
    answers, its verdict is bit 31 of the volatile interrupt status; it
    leaves the pending queue and every context field other than
    [LatchedInputLineState] alone, completes no request, queues the DPC at
    most once and writes no register other than the change-detect IRQ
    register. *)
Theorem isr_frame (w : World) :
  DevBase (ctx w) <> nullptr ->
  exists w' events,
    OsrDioEvtInterruptIsr w =
      Ok (Z.testbit (read_value (hw w) Volatile_Interrupt_Status_Register) 31)
         w'
    /\ trace w' = trace w ++ events
    /\ pending w' = pending w
    /\ (exists l, ctx w' = set_LatchedInputLineState (ctx w) l)
    /\ filter is_completion events = []
    /\ (length (filter is_dpc events) <= 1)%nat
    /\ Forall (fun rv => fst rv = ChangeDetectIRQ_Register)
              (writes_of events).
Proof.
  intros Hmap.
  destruct (Z.testbit (read_value (hw w) Volatile_Interrupt_Status_Register)
                      31) eqn:Hactive.
  - pose proof (isr_run w Hmap Hactive) as Hrun. cbv zeta in Hrun.
    eexists. eexists. split; [exact Hrun|].
    cbn [trace pending ctx].
    split; [reflexivity|split; [reflexivity|]].
    set (c := read_value _ ChangeDetectStatusRegister).
    destruct (Z.testbit c 0), (Z.testbit c 1); cbn;
      (split;
       [first [eexists; reflexivity
              |exists (LatchedInputLineState (ctx w));
               symmetry; apply set_LatchedInputLineState_same]|]);
      (split; [reflexivity|]);
      (split; [lia|]); repeat constructor.
  - pose proof (isr_run_not_mine w Hmap Hactive) as Hrun. cbv zeta in Hrun.
    eexists. eexists. split; [exact Hrun|].
    cbn [trace pending ctx].
    split; [reflexivity|split; [reflexivity|]].
    split; [exists (LatchedInputLineState (ctx w));
            symmetry; apply set_LatchedInputLineState_same|].
    cbn. split; [reflexivity|split; [lia|constructor]].
Qed.

(** ** Device control, every path *)

Lemma ioctl_read_run (w : World) (Request : WDFREQUEST)
    (OutputBufferLength InputBufferLength : Z) :
  OsrDioEvtIoDeviceControl Request OutputBufferLength InputBufferLength
                           IOCTL_OSRDIO_READ w =
    let status := output_buffer_status Request sizeof_OSRDIO_READ_DATA in
    let v := read_value (hw w) Static_Digital_Input_Register in
    if NT_SUCCESS status
    then if DevBase (ctx w) =? nullptr then BugCheck
         else Ok tt (mkWorld (read_next (hw w) Static_Digital_Input_Register)
                             (ctx w) (pending w)
                             (trace w ++
                                [RegRead Static_Digital_Input_Register v;
                                 OutputStore Request v;
                                 Completed Request STATUS_SUCCESS
                                           sizeof_OSRDIO_READ_DATA]))
    else Ok tt (mkWorld (hw w) (ctx w) (pending w)
                        (trace w ++ [Completed Request status 0])).
Proof.
  unfold OsrDioEvtIoDeviceControl. rewrite Z.eqb_refl. cbv zeta.
  unfold ioctl_READ, WdfRequestRetrieveOutputBuffer, bind, ret,
    READ_REGISTER_ULONG, emit, WdfRequestCompleteWithInformation, emit.
  destruct (NT_SUCCESS _); cbn [negb]; [|reflexivity].
  destruct (DevBase (ctx w) =? nullptr); [reflexivity|].
  cbn [hw ctx pending trace]. run_trace. reflexivity.
Qed.

Lemma ioctl_write_run (w : World) (Request : WDFREQUEST)
    (OutputBufferLength InputBufferLength : Z) :
  OsrDioEvtIoDeviceControl Request OutputBufferLength InputBufferLength
                           IOCTL_OSRDIO_WRITE w =
    let status := input_buffer_status Request sizeof_OSRDIO_WRITE_DATA in
    let asserted := Z.land (RequestInputData Request)
                           (OutputLineMask (ctx w)) in
    if OutputLineMask (ctx w) =? 0
    then Ok tt (mkWorld (hw w) (ctx w) (pending w)
                        (trace w ++ [Completed Request
                                               STATUS_INVALID_DEVICE_STATE 0]))
    else if NT_SUCCESS status
    then if DevBase (ctx w) =? nullptr then BugCheck
         else Ok tt (mkWorld (write_next (hw w) Static_Digital_Output_Register
                                         asserted)
                             (ctx w) (pending w)
                             (trace w ++
                                [RegWrite Static_Digital_Output_Register
                                          asserted;
                                 Completed Request STATUS_SUCCESS
                                           sizeof_OSRDIO_WRITE_DATA]))
    else Ok tt (mkWorld (hw w) (ctx w) (pending w)
                        (trace w ++ [Completed Request status 0])).
Proof.
  unfold OsrDioEvtIoDeviceControl.
  change (IOCTL_OSRDIO_WRITE =? IOCTL_OSRDIO_READ) with false.
  rewrite Z.eqb_refl. cbv zeta iota.
  unfold ioctl_WRITE, WdfRequestRetrieveInputBuffer, bind, ret, getContext,
    WRITE_REGISTER_ULONG, WdfRequestCompleteWithInformation, emit.
  destruct (OutputLineMask (ctx w) =? 0); [reflexivity|].
  destruct (NT_SUCCESS _); cbn [negb]; [|reflexivity].
  destruct (DevBase (ctx w) =? nullptr); [reflexivity|].
  cbn [hw ctx pending trace]. run_trace. reflexivity.
Qed.

Lemma program_masks_unmapped (w : World) :
  DevBase (ctx w) = nullptr ->
  DioUtilProgramLineDirectionAndChangeMasks w = BugCheck.
Proof.
  intros Hnull.
  unfold DioUtilProgramLineDirectionAndChangeMasks, bind,
    WRITE_REGISTER_ULONG.
  now rewrite Hnull.
Qed.

Lemma ioctl_set_outputs_run (w : World) (Request : WDFREQUEST)
    (OutputBufferLength InputBufferLength : Z) :
  OsrDioEvtIoDeviceControl Request OutputBufferLength InputBufferLength
                           IOCTL_OSRDIO_SET_OUTPUTS w =
    let status := input_buffer_status Request sizeof_OSRDIO_SET_OUTPUTS_DATA in
    let m := RequestInputData Request in
    let writes :=
      [(DI_FilterRegister_Port0and1, Filter_Large_All_Lines);
       (DI_FilterRegister_Port2and3, Filter_Large_All_Lines);
       (DIO_Direction_Register, m);
       (DI_ChangeIrqRE_Register, ulong_not m);
       (DI_ChangeIrqFE_Register, ulong_not m)] in
    if NT_SUCCESS status
    then if DevBase (ctx w) =? nullptr then BugCheck
         else Ok tt (mkWorld (apply_writes (hw w) writes)
                             (set_OutputLineMask (ctx w) m) (pending w)
                             (trace w ++
                                map (fun rv => RegWrite (fst rv) (snd rv))
                                    writes ++
                                [Completed Request STATUS_SUCCESS
                                           sizeof_OSRDIO_SET_OUTPUTS_DATA]))
    else Ok tt (mkWorld (hw w) (ctx w) (pending w)
                        (trace w ++ [Completed Request status 0])).
Proof.
  unfold OsrDioEvtIoDeviceControl.
  change (IOCTL_OSRDIO_SET_OUTPUTS =? IOCTL_OSRDIO_READ) with false.
  change (IOCTL_OSRDIO_SET_OUTPUTS =? IOCTL_OSRDIO_WRITE) with false.
  rewrite Z.eqb_refl. cbv zeta iota.
  unfold ioctl_SET_OUTPUTS, WdfRequestRetrieveInputBuffer.
  destruct (NT_SUCCESS _) eqn:Hst.
  - destruct (Z.eqb_spec (DevBase (ctx w)) nullptr) as [Hnull|Hmap].
    + unfold bind at 1. unfold bind at 1. unfold ret at 1.
      rewrite Hst. cbn [negb].
      unfold bind, getContext, putContext. cbn [hw ctx pending trace].
      now rewrite program_masks_unmapped by exact Hnull.
    + erewrite bind_Ok.
      2:{ run_step. rewrite Hst. cbn [negb]. run_step. run_step.
          erewrite bind_Ok by (apply program_masks_run; cbn; assumption).
          reflexivity. }
      unfold WdfRequestCompleteWithInformation, emit.
      cbn [hw ctx pending trace set_OutputLineMask OutputLineMask].
      run_trace. reflexivity.
  - erewrite bind_Ok.
    2:{ run_step. rewrite Hst. reflexivity. }
    reflexivity.
Qed.

Lemma ioctl_default_run (w : @World HW) (Request : WDFREQUEST)
    (OutputBufferLength InputBufferLength : Z) (IoControlCode : ULONG) :
  IoControlCode <> IOCTL_OSRDIO_READ ->
  IoControlCode <> IOCTL_OSRDIO_WRITE ->
  IoControlCode <> IOCTL_OSRDIO_SET_OUTPUTS ->
  IoControlCode <> IOCTL_OSRDIO_WAITFOR_CHANGE ->
  OsrDioEvtIoDeviceControl Request OutputBufferLength InputBufferLength
                           IoControlCode w =
    Ok tt (mkWorld (hw w) (ctx w) (pending w)
                   (trace w ++ [Completed Request STATUS_INVALID_PARAMETER 0])).
Proof.
  intros H1 H2 H3 H4. unfold OsrDioEvtIoDeviceControl.
  apply Z.eqb_neq in H1, H2, H3, H4. rewrite H1, H2, H3, H4.
  reflexivity.
Qed.

(** X4: a control code that is none of the four the driver supports is
    refused with STATUS_INVALID_PARAMETER and zero bytes; nothing else
    happens (no register access, no change to the device context or the
    pending queue). *)
Theorem ioctl_unknown_code (w : @World HW) (Request : WDFREQUEST)
    (OutputBufferLength InputBufferLength : Z) (IoControlCode : ULONG) :
  IoControlCode <> IOCTL_OSRDIO_READ ->
  IoControlCode <> IOCTL_OSRDIO_WRITE ->
  IoControlCode <> IOCTL_OSRDIO_SET_OUTPUTS ->
  IoControlCode <> IOCTL_OSRDIO_WAITFOR_CHANGE ->
  completes_with
    (OsrDioEvtIoDeviceControl Request OutputBufferLength InputBufferLength
                              IoControlCode w)
    w Request STATUS_INVALID_PARAMETER 0
  /\ NT_SUCCESS STATUS_INVALID_PARAMETER = false.
Proof.
  intros H1 H2 H3 H4. split; [|reflexivity].
  unfold completes_with. now apply ioctl_default_run.
Qed.

(** X5: a write request whose input buffer is shorter than one
    [OSRDIO_WRITE_DATA] is failed with STATUS_BUFFER_TOO_SMALL and zero
    bytes when some line is an output; the output register is not written
    (the hardware is not touched at all). *)
Theorem write_outputs_short_input (w : World) (Request : WDFREQUEST)
    (OutputBufferLength InputBufferLength : Z) :
  OutputLineMask (ctx w) <> 0 ->
  RequestInputLength Request < sizeof_OSRDIO_WRITE_DATA ->
  completes_with
    (OsrDioEvtIoDeviceControl Request OutputBufferLength InputBufferLength
                              IOCTL_OSRDIO_WRITE w)
    w Request STATUS_BUFFER_TOO_SMALL 0.
Proof.
  intros Hmask Hlen. unfold completes_with.
  rewrite ioctl_write_run. cbv zeta.
  apply Z.eqb_neq in Hmask. rewrite Hmask.
  unfold input_buffer_status. apply Z.ltb_lt in Hlen. now rewrite Hlen.
Qed.

(** X6: a set-outputs request whose input buffer is shorter than one
    [OSRDIO_SET_OUTPUTS_DATA] is failed with STATUS_BUFFER_TOO_SMALL and
    zero bytes; [OutputLineMask] keeps its value and no register is
    programmed. *)
Theorem set_outputs_short_input (w : World) (Request : WDFREQUEST)
    (OutputBufferLength InputBufferLength : Z) :
  RequestInputLength Request < sizeof_OSRDIO_SET_OUTPUTS_DATA ->
  completes_with
    (OsrDioEvtIoDeviceControl Request OutputBufferLength InputBufferLength
                              IOCTL_OSRDIO_SET_OUTPUTS w)
    w Request STATUS_BUFFER_TOO_SMALL 0.
Proof.
  intros Hlen. unfold completes_with.
  rewrite ioctl_set_outputs_run. cbv zeta.
  unfold input_buffer_status. apply Z.ltb_lt in Hlen. now rewrite Hlen.
Qed.

(** X7: on a mapped device every device-control request ends in exactly one
    of two ways.  Either it is completed, once, and the pending queue is
    unchanged; the byte count is 4 on success and 0 on failure.  Or it is
    not completed and joins the tail of the pending queue, which happens
    only to a wait-for-change request.  No other request is completed. *)
Theorem ioctl_completes_or_queues (w : World) (Request : WDFREQUEST)
    (OutputBufferLength InputBufferLength : Z) (IoControlCode : ULONG) :
  DevBase (ctx w) <> nullptr ->
  exists w' events,
    OsrDioEvtIoDeviceControl Request OutputBufferLength InputBufferLength
                             IoControlCode w = Ok tt w'
    /\ trace w' = trace w ++ events
    /\ ((exists status,
           filter is_completion events =
             [Completed Request status (if NT_SUCCESS status then 4 else 0)]
           /\ pending w' = pending w)
        \/ (IoControlCode = IOCTL_OSRDIO_WAITFOR_CHANGE
            /\ filter is_completion events = []
            /\ pending w' = pending w ++ [Request])).
Proof.
  intros Hmap. apply Z.eqb_neq in Hmap.
  destruct (Z.eq_dec IoControlCode IOCTL_OSRDIO_READ) as [->|H1].
  { rewrite ioctl_read_run. cbv zeta. rewrite Hmap.
    destruct (NT_SUCCESS _) eqn:Hst;
      (eexists; eexists; split; [reflexivity|]; split; [reflexivity|]);
      left; cbn [trace pending filter is_completion].
    - exists STATUS_SUCCESS. split; reflexivity.
    - eexists. rewrite Hst. split; reflexivity. }
  destruct (Z.eq_dec IoControlCode IOCTL_OSRDIO_WRITE) as [->|H2].
  { rewrite ioctl_write_run. cbv zeta. rewrite Hmap.
    destruct (OutputLineMask (ctx w) =? 0);
      [|destruct (NT_SUCCESS _) eqn:Hst];
      (eexists; eexists; split; [reflexivity|]; split; [reflexivity|]);
      left; cbn [trace pending filter is_completion].
    - exists STATUS_INVALID_DEVICE_STATE. split; reflexivity.
    - exists STATUS_SUCCESS. split; reflexivity.
    - eexists. rewrite Hst. split; reflexivity. }
  destruct (Z.eq_dec IoControlCode IOCTL_OSRDIO_SET_OUTPUTS) as [->|H3].
  { rewrite ioctl_set_outputs_run. cbv zeta. rewrite Hmap.
    destruct (NT_SUCCESS _) eqn:Hst;
      (eexists; eexists; split; [reflexivity|]; split; [reflexivity|]);
      left; cbn [trace pending filter is_completion map app fst snd].
    - exists STATUS_SUCCESS. split; reflexivity.
    - eexists. rewrite Hst. split; reflexivity. }
  destruct (Z.eq_dec IoControlCode IOCTL_OSRDIO_WAITFOR_CHANGE) as [->|H4].
  { rewrite waitfor_change_run.
    destruct (ulong_not _ =? 0);
      [|destruct (OutputBufferLength <? _)].
    - eexists; eexists; split; [reflexivity|]; split; [reflexivity|].
      left. exists STATUS_NONE_MAPPED. split; reflexivity.
    - eexists; eexists; split; [reflexivity|]; split; [reflexivity|].
      left. exists STATUS_INVALID_BUFFER_SIZE. split; reflexivity.
    - eexists; exists []; split; [reflexivity|].
      split; [cbn [trace]; now rewrite app_nil_r|].
      right. repeat split. }
  rewrite ioctl_default_run by assumption.
  eexists; eexists; split; [reflexivity|]; split; [reflexivity|].
  left. exists STATUS_INVALID_PARAMETER. split; reflexivity.
Qed.

(** X8: on a mapped device, device control changes the device context only
    through a set-outputs request, and then only [OutputLineMask]; it
    writes a register only for a write or a set-outputs request. *)
Theorem ioctl_frame (w : World) (Request : WDFREQUEST)
    (OutputBufferLength InputBufferLength : Z) (IoControlCode : ULONG) :
  DevBase (ctx w) <> nullptr ->
  exists w' events,
    OsrDioEvtIoDeviceControl Request OutputBufferLength InputBufferLength
                             IoControlCode w = Ok tt w'
    /\ trace w' = trace w ++ events
    /\ (exists m, ctx w' = set_OutputLineMask (ctx w) m)
    /\ (IoControlCode <> IOCTL_OSRDIO_SET_OUTPUTS -> ctx w' = ctx w)
    /\ (IoControlCode <> IOCTL_OSRDIO_SET_OUTPUTS ->
        IoControlCode <> IOCTL_OSRDIO_WRITE ->
        writes_of events = []).
Proof.
  intros Hmap. apply Z.eqb_neq in Hmap.
  assert (Hsame : exists m, ctx w = set_OutputLineMask (ctx w) m)
    by (exists (OutputLineMask (ctx w)); now destruct (ctx w)).
  destruct (Z.eq_dec IoControlCode IOCTL_OSRDIO_READ) as [->|H1].
  { rewrite ioctl_read_run. cbv zeta. rewrite Hmap.
    destruct (NT_SUCCESS _);
      (eexists; eexists; split; [reflexivity|]; split; [reflexivity|]);
      cbn [ctx]; repeat split; assumption. }
  destruct (Z.eq_dec IoControlCode IOCTL_OSRDIO_WRITE) as [->|H2].
  { rewrite ioctl_write_run. cbv zeta. rewrite Hmap.
    destruct (OutputLineMask (ctx w) =? 0);
      [|destruct (NT_SUCCESS _)];
      (eexists; eexists; split; [reflexivity|]; split; [reflexivity|]);
      cbn [ctx]; repeat split; try assumption; intros; congruence. }
  destruct (Z.eq_dec IoControlCode IOCTL_OSRDIO_SET_OUTPUTS) as [->|H3].
  { rewrite ioctl_set_outputs_run. cbv zeta. rewrite Hmap.
    destruct (NT_SUCCESS _);
      (eexists; eexists; split; [reflexivity|]; split; [reflexivity|]);
      cbn [ctx]; repeat split; try assumption; try congruence.
    eexists; reflexivity. }
  destruct (Z.eq_dec IoControlCode IOCTL_OSRDIO_WAITFOR_CHANGE) as [->|H4].
  { rewrite waitfor_change_run.
    destruct (ulong_not _ =? 0);
      [|destruct (OutputBufferLength <? _)].
    - eexists; eexists; split; [reflexivity|]; split; [reflexivity|].
      cbn [ctx]; repeat split; assumption.
    - eexists; eexists; split; [reflexivity|]; split; [reflexivity|].
      cbn [ctx]; repeat split; assumption.
    - eexists; exists []; split; [reflexivity|].
      split; [cbn [trace]; now rewrite app_nil_r|].
      cbn [ctx]; repeat split; assumption. }
  rewrite ioctl_default_run by assumption.
  eexists; eexists; split; [reflexivity|]; split; [reflexivity|].
  cbn [ctx]; repeat split; assumption.
Qed.

(** X9: a newly configured output mask governs the next write.  After a
    set-outputs request with mask [m], a write request for [v] asserts
    exactly [v & m] when [m] is not zero, whatever the mask was before, and
    is refused with STATUS_INVALID_DEVICE_STATE when [m] is zero. *)
Theorem set_outputs_then_write (w : World) (SetRequest WriteRequest : WDFREQUEST)
    (m v : ULONG) (out1 in1 out2 in2 : Z) :
  DevBase (ctx w) <> nullptr ->
  RequestInputData SetRequest = m ->
  sizeof_OSRDIO_SET_OUTPUTS_DATA <= RequestInputLength SetRequest ->
  RequestInputData WriteRequest = v ->
  sizeof_OSRDIO_WRITE_DATA <= RequestInputLength WriteRequest ->
  let programming :=
    [(DI_FilterRegister_Port0and1, Filter_Large_All_Lines);
     (DI_FilterRegister_Port2and3, Filter_Large_All_Lines);
     (DIO_Direction_Register, m);
     (DI_ChangeIrqRE_Register, ulong_not m);
     (DI_ChangeIrqFE_Register, ulong_not m)] in
  let configured :=
    write_events programming
    ++ [Completed SetRequest STATUS_SUCCESS sizeof_OSRDIO_SET_OUTPUTS_DATA] in
  bind (OsrDioEvtIoDeviceControl SetRequest out1 in1
                                 IOCTL_OSRDIO_SET_OUTPUTS)
       (fun _ => OsrDioEvtIoDeviceControl WriteRequest out2 in2
                                          IOCTL_OSRDIO_WRITE)
       w =
    if m =? 0
    then Ok tt (mkWorld (apply_writes (hw w) programming)
                        (set_OutputLineMask (ctx w) m) (pending w)
                        (trace w ++ configured ++
                           [Completed WriteRequest
                                      STATUS_INVALID_DEVICE_STATE 0]))
    else Ok tt (mkWorld (write_next (apply_writes (hw w) programming)
                                    Static_Digital_Output_Register
                                    (Z.land v m))
                        (set_OutputLineMask (ctx w) m) (pending w)
                        (trace w ++ configured ++
                           [RegWrite Static_Digital_Output_Register
                                     (Z.land v m);
                            Completed WriteRequest STATUS_SUCCESS
                                      sizeof_OSRDIO_WRITE_DATA])).
Proof.
  intros Hmap Hm Hslen Hv Hwlen programming configured.
  apply Z.eqb_neq in Hmap.
  erewrite bind_Ok.
  2:{ rewrite ioctl_set_outputs_run. cbv zeta.
      unfold input_buffer_status. apply Z.ltb_ge in Hslen. rewrite Hslen.
      change (NT_SUCCESS STATUS_SUCCESS) with true. cbv iota.
      rewrite Hmap. rewrite Hm. reflexivity. }
  rewrite ioctl_write_run. cbv zeta.
  cbn [hw ctx pending trace set_OutputLineMask OutputLineMask DevBase].
  unfold input_buffer_status. apply Z.ltb_ge in Hwlen. rewrite Hwlen.
  change (NT_SUCCESS STATUS_SUCCESS) with true. cbv iota.
  rewrite Hmap, Hv.
  subst configured. unfold write_events. fold programming.
  destruct (m =? 0); run_trace; rewrite <- ?app_assoc; reflexivity.
Qed.

(** X10: a newly configured output mask governs the next wait.  After a
    set-outputs request with a 32-bit mask [m], a wait-for-change request
    with room for a result is refused with STATUS_NONE_MAPPED when [m] is
    0xFFFFFFFF and queued otherwise, whatever the mask was before. *)
Theorem set_outputs_then_wait (w : World) (SetRequest WaitRequest : WDFREQUEST)
    (m : ULONG) (out1 in1 OutputBufferLength InputBufferLength : Z) :
  DevBase (ctx w) <> nullptr ->
  is_ULONG m ->
  RequestInputData SetRequest = m ->
  sizeof_OSRDIO_SET_OUTPUTS_DATA <= RequestInputLength SetRequest ->
  sizeof_OSRDIO_CHANGE_DATA <= OutputBufferLength ->
  let programming :=
    [(DI_FilterRegister_Port0and1, Filter_Large_All_Lines);
     (DI_FilterRegister_Port2and3, Filter_Large_All_Lines);
     (DIO_Direction_Register, m);
     (DI_ChangeIrqRE_Register, ulong_not m);
     (DI_ChangeIrqFE_Register, ulong_not m)] in
  let configured :=
    write_events programming
    ++ [Completed SetRequest STATUS_SUCCESS sizeof_OSRDIO_SET_OUTPUTS_DATA] in
  bind (OsrDioEvtIoDeviceControl SetRequest out1 in1
                                 IOCTL_OSRDIO_SET_OUTPUTS)
       (fun _ => OsrDioEvtIoDeviceControl WaitRequest OutputBufferLength
                                          InputBufferLength
                                          IOCTL_OSRDIO_WAITFOR_CHANGE)
       w =
    if m =? 0xFFFFFFFF
    then Ok tt (mkWorld (apply_writes (hw w) programming)
                        (set_OutputLineMask (ctx w) m) (pending w)
                        (trace w ++ configured ++
                           [Completed WaitRequest STATUS_NONE_MAPPED 0]))
    else Ok tt (mkWorld (apply_writes (hw w) programming)
                        (set_OutputLineMask (ctx w) m)
                        (pending w ++ [WaitRequest])
                        (trace w ++ configured)).
Proof.
  intros Hmap Hrange Hm Hslen Hlen programming configured.
  apply Z.eqb_neq in Hmap.
  erewrite bind_Ok.
  2:{ rewrite ioctl_set_outputs_run. cbv zeta.
      unfold input_buffer_status. apply Z.ltb_ge in Hslen. rewrite Hslen.
      change (NT_SUCCESS STATUS_SUCCESS) with true. cbv iota.
      rewrite Hmap. rewrite Hm. reflexivity. }
  rewrite waitfor_change_run.
  cbn [hw ctx pending trace set_OutputLineMask OutputLineMask].
  rewrite ulong_not_zero_iff by assumption. unfold ULONG_MAX.
  apply Z.ltb_ge in Hlen. rewrite Hlen.
  subst configured. unfold write_events. fold programming.
  destruct (m =? 0xFFFFFFFF); rewrite <- ?app_assoc; reflexivity.
Qed.

(** ** The pending queue across several calls *)

Lemma dpc_run (w : @World HW) :
  OsrDioEvtInterruptDpc w =
    match pending w with
    | [] => Ok tt w
    | req :: rest =>
        let status := output_buffer_status req sizeof_OSRDIO_CHANGE_DATA in
        if NT_SUCCESS status
        then Ok tt (mkWorld (hw w) (ctx w) rest
                            (trace w ++ delivery (ctx w) req))
        else Ok tt (mkWorld (hw w) (ctx w) rest
                            (trace w ++ [Completed req status 0]))
    end.
Proof.
  unfold OsrDioEvtInterruptDpc, WdfIoQueueRetrieveNextRequest, bind.
  destruct (pending w) as [|req rest] eqn:Hq.
  - cbn. now destruct w; cbn in Hq; subst.
  - cbn [fst snd NT_SUCCESS STATUS_SUCCESS Z.leb Z.compare negb].
    unfold WdfRequestRetrieveOutputBuffer, ret. cbv zeta.
    destruct (NT_SUCCESS _); [|reflexivity].
    unfold getContext, WdfRequestCompleteWithInformation, emit, delivery.
    cbn [hw ctx pending trace]. run_trace. reflexivity.
Qed.

Lemma output_buffer_ok (req : WDFREQUEST) (size : Z) :
  size <= RequestOutputLength req ->
  NT_SUCCESS (output_buffer_status req size) = true.
Proof.
  intros H. unfold output_buffer_status.
  apply Z.ltb_ge in H. now rewrite H.
Qed.

(** X11: [n] DPC runs in a row, with every waiter's buffer retrievable,
    serve the [n] oldest waiters in arrival order, each exactly once and
    each with the current [LatchedInputLineState]; the younger waiters stay
    queued in their order, and runs beyond the length of the queue do
    nothing. *)
Theorem dpcs_serve_in_arrival_order (n : nat) (w : @World HW) :
  Forall (fun r => sizeof_OSRDIO_CHANGE_DATA <= RequestOutputLength r)
         (pending w) ->
  run_dpcs n w =
    Ok tt (mkWorld (hw w) (ctx w) (skipn n (pending w))
                   (trace w ++ flat_map (delivery (ctx w))
                                        (firstn n (pending w)))).
Proof.
  revert w. induction n as [|n IH]; intros w Hbuf.
  - cbn. rewrite app_nil_r. now destruct w.
  - cbn [run_dpcs]. unfold bind. rewrite dpc_run.
    destruct (pending w) as [|req rest] eqn:Hq.
    + specialize (IH w). rewrite Hq in IH.
      rewrite IH by constructor.
      rewrite skipn_nil, firstn_nil. reflexivity.
    + inversion Hbuf as [|? ? Hreq Hrest]; subst.
      cbv zeta. rewrite output_buffer_ok by exact Hreq.
      rewrite IH by exact Hrest.
      cbn [hw ctx pending trace skipn firstn flat_map].
      rewrite <- app_assoc. reflexivity.
Qed.

(** X12: a new waiter never overtakes an older one.  When a wait-for-change
    request is accepted and the DPC then runs, the DPC serves the request
    that was at the head of the queue before, and the new request goes to
    the tail; only on an empty queue does it serve the new request
    itself. *)
Theorem wait_then_dpc_serves_oldest (w : @World HW) (Request : WDFREQUEST)
    (OutputBufferLength InputBufferLength : Z) :
  is_ULONG (OutputLineMask (ctx w)) ->
  OutputLineMask (ctx w) <> 0xFFFFFFFF ->
  sizeof_OSRDIO_CHANGE_DATA <= OutputBufferLength ->
  Forall (fun r => sizeof_OSRDIO_CHANGE_DATA <= RequestOutputLength r)
         (pending w ++ [Request]) ->
  bind (OsrDioEvtIoDeviceControl Request OutputBufferLength InputBufferLength
                                 IOCTL_OSRDIO_WAITFOR_CHANGE)
       (fun _ => OsrDioEvtInterruptDpc) w =
    match pending w with
    | [] => Ok tt (mkWorld (hw w) (ctx w) []
                           (trace w ++ delivery (ctx w) Request))
    | oldest :: rest =>
        Ok tt (mkWorld (hw w) (ctx w) (rest ++ [Request])
                       (trace w ++ delivery (ctx w) oldest))
    end.
Proof.
  intros Hrange Hmask Hlen Hbuf.
  erewrite bind_Ok.
  2:{ rewrite waitfor_change_run, ulong_not_zero_iff by assumption.
      unfold ULONG_MAX. apply Z.eqb_neq in Hmask. rewrite Hmask.
      apply Z.ltb_ge in Hlen. rewrite Hlen. reflexivity. }
  rewrite dpc_run. cbn [hw ctx pending trace].
  destruct (pending w) as [|oldest rest]; cbn [app] in *;
    inversion Hbuf as [|? ? Hhead _]; subst;
    cbv zeta; now rewrite output_buffer_ok by exact Hhead.
Qed.

(** X13: interrupt to completion.  On a mapped device that signals a
    change (interrupt active, status set, error clear) with a waiter at the
    head of the queue whose buffer is retrievable, the ISR followed by its
    DPC completes that waiter with the value the ISR read from the
    latched-input register, and leaves the remaining waiters queued. *)
Theorem isr_then_dpc_delivers_latched (w : World) (req : WDFREQUEST)
    (rest : list WDFREQUEST) :
  DevBase (ctx w) <> nullptr ->
  pending w = req :: rest ->
  sizeof_OSRDIO_CHANGE_DATA <= RequestOutputLength req ->
  let s := read_value (hw w) Volatile_Interrupt_Status_Register in
  let h1 := read_next (hw w) Volatile_Interrupt_Status_Register in
  let c := read_value h1 ChangeDetectStatusRegister in
  let h2 := read_next h1 ChangeDetectStatusRegister in
  let l := read_value h2 DI_ChangeDetectLatched_Register in
  let h3 := read_next h2 DI_ChangeDetectLatched_Register in
  Z.testbit s 31 = true ->
  Z.testbit c 0 = true ->
  Z.testbit c 1 = false ->
  bind OsrDioEvtInterruptIsr (fun _ => OsrDioEvtInterruptDpc) w =
    Ok tt (mkWorld (write_next h3 ChangeDetectIRQ_Register
                               ChangeDetectIRQ_Acknowledge)
                   (set_LatchedInputLineState (ctx w) l) rest
                   (trace w ++
                      [RegRead Volatile_Interrupt_Status_Register s;
                       RegRead ChangeDetectStatusRegister c;
                       RegRead DI_ChangeDetectLatched_Register l;
                       DpcQueued;
                       RegWrite ChangeDetectIRQ_Register
                                ChangeDetectIRQ_Acknowledge;
                       OutputStore req l;
                       Completed req STATUS_SUCCESS
                                 sizeof_OSRDIO_CHANGE_DATA])).
Proof.
  intros Hmap Hq Hbuf s h1 c h2 l h3 Hactive Hstatus Herror.
  pose proof (isr_run w Hmap Hactive) as Hrun.
  cbv zeta in Hrun. fold s h1 c h2 l h3 in Hrun.
  rewrite Hstatus, Herror in Hrun. cbn [andb negb app] in Hrun.
  erewrite bind_Ok by exact Hrun.
  rewrite dpc_run. cbn [hw ctx pending trace]. rewrite Hq.
  cbv zeta. rewrite output_buffer_ok by exact Hbuf.
  unfold delivery. cbn [LatchedInputLineState set_LatchedInputLineState].
  unfold apply_writes. cbn [writes_of fold_left fst snd].
  rewrite <- app_assoc. reflexivity.
Qed.


(** ** Enabling and disabling interrupts *)

Lemma reset_interrupts_run (w : World) :
  DevBase (ctx w) <> nullptr ->
  DioUtilResetDeviceInterrupts w =
    Ok tt (mkWorld (apply_writes (hw w) interrupt_reset_writes)
                   (ctx w) (pending w)
                   (trace w ++ write_events interrupt_reset_writes)).
Proof.
  intros Hmap. unfold DioUtilResetDeviceInterrupts.
  do 3 run_step. rewrite run_write by (cbn; assumption).
  cbn [hw ctx pending trace]. run_trace. reflexivity.
Qed.

Lemma enable_interrupts_run (w : World) :
  DevBase (ctx w) <> nullptr ->
  let writes :=
    [(GlobalInterruptEnable_Register, DI_Interrupt_Enable);
     (ChangeDetectIRQ_Register,
      Z.lor ChangeDetectErrorIRQ_Enable ChangeDetectIRQ_Enable);
     (Interrupt_Mask_Register, Z.lor Set_CPU_Int Set_STC3_Int)] in
  DioUtilEnableDeviceInterrupts w =
    Ok tt (mkWorld (apply_writes (hw w) writes) (ctx w) (pending w)
                   (trace w ++ write_events writes)).
Proof.
  intros Hmap writes. unfold DioUtilEnableDeviceInterrupts.
  do 2 run_step. rewrite run_write by (cbn; assumption).
  cbn [hw ctx pending trace]. run_trace. reflexivity.
Qed.

Lemma device_reset_run (w : World) :
  DevBase (ctx w) <> nullptr ->
  DioUtilDeviceReset w =
    Ok tt (mkWorld (apply_writes (hw w) device_reset_writes)
                   (ctx w) (pending w)
                   (trace w ++ write_events device_reset_writes)).
Proof.
  intros Hmap. unfold DioUtilDeviceReset.
  erewrite bind_Ok by (apply reset_interrupts_run; assumption).
  do 3 run_step. rewrite run_write by (cbn; assumption).
  cbn [hw ctx pending trace]. run_trace. reflexivity.
Qed.

(** X15: disabling interrupts on a mapped device starts with the software
    reset and ends with every interrupt source disabled, whatever was
    programmed before: four register writes, and the values the three
    control registers were last written with have exactly the disable (or
    clear) and acknowledge bits set -- both change-detect acknowledge and
    disable bits, the digital-input and the watchdog disable bits, both
    clear bits of the interrupt mask -- and no enable (or set) bit.  The
    device context and the pending queue are unchanged, so requests that
    wait for a change stay queued. *)
Theorem interrupt_disable_leaves_disabled (w : World) :
  DevBase (ctx w) <> nullptr ->
  exists w' later,
    OsrDioEvtInterruptDisable w = Ok STATUS_SUCCESS w'
    /\ ctx w' = ctx w
    /\ pending w' = pending w
    /\ trace w' = trace w ++ RegWrite Joint_Reset_Register Software_Reset
                             :: later
    /\ later = [RegWrite Interrupt_Mask_Register 0x40000400;
                RegWrite GlobalInterruptEnable_Register 0x04400000;
                RegWrite ChangeDetectIRQ_Register 0x53]
    /\ Software_Reset = 1
    /\ (exists v,
          last_written (reg_offset ChangeDetectIRQ_Register) (trace w')
            = Some v
          /\ v = Z.lor (Z.lor (Z.lor ChangeDetectIRQ_Acknowledge
                                     ChangeDetectIRQ_Disable)
                              ChangeDetectErrorIRQ_Acknowledge)
                       ChangeDetectErrorIRQ_Disable
          /\ (forall i, Z.testbit v i
                        = (i =? 0) || (i =? 1) || (i =? 4) || (i =? 6))
          /\ Z.testbit v 4 = true /\ Z.testbit v 6 = true
          /\ Z.testbit v 5 = false /\ Z.testbit v 7 = false)
    /\ (exists v,
          last_written (reg_offset GlobalInterruptEnable_Register) (trace w')
            = Some v
          /\ v = Z.lor DI_Interrupt_Disable WatchdogTimer_Interrupt_Disable
          /\ (forall i, Z.testbit v i = (i =? 22) || (i =? 26))
          /\ Z.testbit v 22 = true /\ Z.testbit v 26 = true
          /\ Z.testbit v 6 = false /\ Z.testbit v 10 = false)
    /\ (exists v,
          last_written (reg_offset Interrupt_Mask_Register) (trace w')
            = Some v
          /\ v = Z.lor Clear_CPU_Int Clear_STC3_Int
          /\ (forall i, Z.testbit v i = (i =? 10) || (i =? 30))
          /\ Z.testbit v 30 = true /\ Z.testbit v 10 = true
          /\ Z.testbit v 31 = false /\ Z.testbit v 11 = false).
Proof.
  intros Hmap. unfold OsrDioEvtInterruptDisable.
  erewrite bind_Ok by (apply reset_interrupts_run; assumption).
  eexists. eexists. split; [reflexivity|].
  cbn [ctx pending trace].
  split; [reflexivity|split; [reflexivity|split; [reflexivity|]]].
  split; [reflexivity|split; [reflexivity|]].
  rewrite !last_written_app.
  split; [|split]; eexists; (split; [reflexivity|]);
    (split; [reflexivity|]); (split; [intros i|repeat split]).
  - match goal with
    | |- Z.testbit _ i = ?r =>
        change (Z.testbit (bits_value [0; 1; 4; 6]) i = r)
    end.
    rewrite bits_value_spec by (repeat constructor; lia).
    cbn [existsb]. now rewrite orb_false_r, !orb_assoc.
  - match goal with
    | |- Z.testbit _ i = ?r =>
        change (Z.testbit (bits_value [22; 26]) i = r)
    end.
    rewrite bits_value_spec by (repeat constructor; lia).
    cbn [existsb]. now rewrite orb_false_r.
  - match goal with
    | |- Z.testbit _ i = ?r =>
        change (Z.testbit (bits_value [10; 30]) i = r)
    end.
    rewrite bits_value_spec by (repeat constructor; lia).
    cbn [existsb]. now rewrite orb_false_r.
Qed.

(** X16: enabling interrupts on a mapped device resets and disables first,
    enables second, and programs the line direction and the change masks
    from [OutputLineMask] last: twelve register writes in this order.  The
    three control registers are left with the enabling values, and the
    device context is unchanged. *)
Theorem interrupt_enable_sequence (w : World) :
  DevBase (ctx w) <> nullptr ->
  let m := OutputLineMask (ctx w) in
  let writes :=
    interrupt_reset_writes
    ++ [(GlobalInterruptEnable_Register, DI_Interrupt_Enable);
        (ChangeDetectIRQ_Register,
         Z.lor ChangeDetectErrorIRQ_Enable ChangeDetectIRQ_Enable);
        (Interrupt_Mask_Register, Z.lor Set_CPU_Int Set_STC3_Int);
        (DI_FilterRegister_Port0and1, Filter_Large_All_Lines);
        (DI_FilterRegister_Port2and3, Filter_Large_All_Lines);
        (DIO_Direction_Register, m);
        (DI_ChangeIrqRE_Register, ulong_not m);
        (DI_ChangeIrqFE_Register, ulong_not m)] in
  let t' := trace w ++ write_events writes in
  OsrDioEvtInterruptEnable w =
    Ok STATUS_SUCCESS
       (mkWorld (apply_writes (hw w) writes) (ctx w) (pending w) t')
  /\ last_written (reg_offset ChangeDetectIRQ_Register) t'
     = Some (Z.lor ChangeDetectErrorIRQ_Enable ChangeDetectIRQ_Enable)
  /\ last_written (reg_offset GlobalInterruptEnable_Register) t'
     = Some DI_Interrupt_Enable
  /\ last_written (reg_offset Interrupt_Mask_Register) t'
     = Some (Z.lor Set_CPU_Int Set_STC3_Int)
  /\ last_written (reg_offset DIO_Direction_Register) t' = Some m.
Proof.
  intros Hmap m writes t'.
  split.
  - unfold OsrDioEvtInterruptEnable.
    erewrite bind_Ok by (apply reset_interrupts_run; assumption).
    erewrite bind_Ok by (apply enable_interrupts_run; cbn; assumption).
    erewrite bind_Ok by (apply program_masks_run; cbn; assumption).
    unfold ret. cbn [hw ctx pending trace].
    subst t' writes. unfold write_events, apply_writes.
    rewrite <- !app_assoc, !map_app, !fold_left_app. reflexivity.
  - subst t'. rewrite !last_written_app. repeat split.
Qed.

(** ** Acquiring and releasing the hardware *)

Lemma prepare_resources_run (MmMapIoSpaceEx : Z -> ULONG -> Z)
    (rs : list CM_PARTIAL_RESOURCE_DESCRIPTOR) (found : bool) (w : @World HW) :
  prepare_resources MmMapIoSpaceEx rs found w =
    Ok (found || existsb is_interrupt_resource rs)
       (mkWorld (hw w) (fold_left (resource_step MmMapIoSpaceEx) rs (ctx w))
                (pending w) (trace w)).
Proof.
  revert found w. induction rs as [|r rs IH]; intros found w.
  - cbn. rewrite orb_false_r. now destruct w.
  - cbn [prepare_resources fold_left existsb].
    destruct r as [Start Length| |t]; cbn [is_interrupt_resource resource_step].
    + unfold bind at 1.
      destruct (Length =? DIO_BAR_SIZE).
      * unfold bind, getContext, putContext.
        cbn [hw ctx pending trace set_DevBase DevBase].
        destruct (MmMapIoSpaceEx Start Length =? nullptr);
          rewrite IH; reflexivity.
      * unfold ret. rewrite IH. now destruct w.
    + rewrite IH. cbn. now rewrite orb_true_r.
    + rewrite IH. reflexivity.
Qed.

Lemma resource_step_fields (f : Z -> ULONG -> Z)
    (rs : list CM_PARTIAL_RESOURCE_DESCRIPTOR) (c : OSRDIO_DEVICE_CONTEXT) :
  fold_left (resource_step f) rs c =
    set_MappedLength
      (set_DevBase c (DevBase (fold_left (resource_step f) rs c)))
      (MappedLength (fold_left (resource_step f) rs c)).
Proof.
  revert c. induction rs as [|r rs IH]; intros c.
  - now destruct c.
  - cbn [fold_left]. rewrite IH at 1.
    set (c' := fold_left _ rs _).
    destruct r as [Start Length| |t]; cbn [resource_step];
      try reflexivity.
    now destruct (Length =? DIO_BAR_SIZE).
Qed.

Lemma resource_step_no_bar (f : Z -> ULONG -> Z)
    (rs : list CM_PARTIAL_RESOURCE_DESCRIPTOR) (c : OSRDIO_DEVICE_CONTEXT) :
  existsb is_bar_resource rs = false ->
  fold_left (resource_step f) rs c = c.
Proof.
  revert c. induction rs as [|r rs IH]; intros c Hno; [reflexivity|].
  cbn [existsb] in Hno. apply orb_false_elim in Hno as [Hr Hrs].
  cbn [fold_left]. rewrite IH by exact Hrs.
  destruct r as [Start Length| |t]; cbn [resource_step is_bar_resource] in *;
    try reflexivity.
  now rewrite Hr.
Qed.

Lemma prepare_hardware_run (MmMapIoSpaceEx : Z -> ULONG -> Z)
    (rs : list CM_PARTIAL_RESOURCE_DESCRIPTOR) (w : World) :
  let c := fold_left (resource_step MmMapIoSpaceEx) rs (ctx w) in
  OsrDioEvtDevicePrepareHardware MmMapIoSpaceEx rs w =
    if (DevBase c =? nullptr) || negb (existsb is_interrupt_resource rs)
    then Ok STATUS_PNP_DRIVER_CONFIGURATION_NOT_FOUND
            (mkWorld (hw w) c (pending w) (trace w))
    else Ok STATUS_SUCCESS
            (mkWorld (apply_writes (hw w) device_reset_writes)
                     (set_SavedOutputLineState (set_OutputLineMask c 0) 0)
                     (pending w)
                     (trace w ++ write_events device_reset_writes)).
Proof.
  intros c. unfold OsrDioEvtDevicePrepareHardware.
  erewrite bind_Ok by apply prepare_resources_run.
  cbn [orb]. run_step. fold c.
  destruct (Z.eqb_spec (DevBase c) nullptr) as [Hnull|Hmap];
    cbn [orb]; [reflexivity|].
  destruct (existsb is_interrupt_resource rs); cbn [negb]; [|reflexivity].
  do 3 run_step.
  erewrite bind_Ok by (apply device_reset_run; cbn; assumption).
  reflexivity.
Qed.

(** X17: acquiring the hardware never faults and has two outcomes.  On
    success the registers are mapped ([DevBase] is not null), an interrupt
    resource was present, [OutputLineMask] and [SavedOutputLineState] are
    zero whatever they were, and the device has been reset (interrupts
    reset, then direction, outputs and both change masks zeroed).  On
    failure the status is STATUS_PNP_DRIVER_CONFIGURATION_NOT_FOUND, no
    register has been touched and the two masks are as they were; the
    cause is a null [DevBase] or a missing interrupt resource. *)
Theorem prepare_hardware_outcome (MmMapIoSpaceEx : Z -> ULONG -> Z)
    (rs : list CM_PARTIAL_RESOURCE_DESCRIPTOR) (w : World) :
  exists status w',
    OsrDioEvtDevicePrepareHardware MmMapIoSpaceEx rs w = Ok status w'
    /\ pending w' = pending w
    /\ ((status = STATUS_SUCCESS
         /\ DevBase (ctx w') <> nullptr
         /\ existsb is_interrupt_resource rs = true
         /\ OutputLineMask (ctx w') = 0
         /\ SavedOutputLineState (ctx w') = 0
         /\ trace w' = trace w ++ write_events device_reset_writes)
        \/ (status = STATUS_PNP_DRIVER_CONFIGURATION_NOT_FOUND
            /\ NT_SUCCESS status = false
            /\ hw w' = hw w
            /\ trace w' = trace w
            /\ OutputLineMask (ctx w') = OutputLineMask (ctx w)
            /\ SavedOutputLineState (ctx w') = SavedOutputLineState (ctx w)
            /\ (DevBase (ctx w') = nullptr
                \/ existsb is_interrupt_resource rs = false))).
Proof.
  rewrite prepare_hardware_run. cbv zeta.
  set (c := fold_left _ rs (ctx w)).
  assert (Hc : c = set_MappedLength (set_DevBase (ctx w) (DevBase c))
                                    (MappedLength c))
    by apply resource_step_fields.
  assert (Hmask : OutputLineMask c = OutputLineMask (ctx w))
    by (rewrite Hc; reflexivity).
  assert (Hsaved : SavedOutputLineState c = SavedOutputLineState (ctx w))
    by (rewrite Hc; reflexivity).
  destruct (Z.eqb_spec (DevBase c) nullptr) as [Hnull|Hmap]; cbn [orb].
  - eexists. eexists. split; [reflexivity|]. split; [reflexivity|].
    right. cbn [hw ctx trace]. repeat split; try assumption. now left.
  - destruct (existsb is_interrupt_resource rs); cbn [negb].
    + eexists. eexists. split; [reflexivity|]. split; [reflexivity|].
      left. cbn [hw ctx trace]. repeat split. exact Hmap.
    + eexists. eexists. split; [reflexivity|]. split; [reflexivity|].
      right. cbn [hw ctx trace]. repeat split; try assumption. now right.
Qed.

(** X18: memory resources of any other size than the BAR's are ignored.
    When no translated resource is a memory range of [DIO_BAR_SIZE] bytes
    and the registers are not mapped yet, acquisition fails with
    STATUS_PNP_DRIVER_CONFIGURATION_NOT_FOUND and changes nothing at
    all. *)
Theorem prepare_hardware_without_bar (MmMapIoSpaceEx : Z -> ULONG -> Z)
    (rs : list CM_PARTIAL_RESOURCE_DESCRIPTOR) (w : World) :
  existsb is_bar_resource rs = false ->
  DevBase (ctx w) = nullptr ->
  OsrDioEvtDevicePrepareHardware MmMapIoSpaceEx rs w =
    Ok STATUS_PNP_DRIVER_CONFIGURATION_NOT_FOUND w.
Proof.
  intros Hno Hnull. rewrite prepare_hardware_run. cbv zeta.
  rewrite resource_step_no_bar by exact Hno.
  rewrite Hnull. cbn. now destruct w.
Qed.

(** X19: the last memory resource of [DIO_BAR_SIZE] bytes decides.  With
    an interrupt resource present, acquisition succeeds exactly when
    mapping that resource succeeds: then [DevBase] is the mapped address,
    [MappedLength] is [DIO_BAR_SIZE], both masks are zero and the device
    has been reset; when the mapping fails, [DevBase] is null,
    [MappedLength] is zero and no register is touched. *)
Theorem prepare_hardware_last_bar_decides (MmMapIoSpaceEx : Z -> ULONG -> Z)
    (before after : list CM_PARTIAL_RESOURCE_DESCRIPTOR) (Start : Z)
    (w : World) :
  existsb is_bar_resource after = false ->
  existsb is_interrupt_resource (before ++ after) = true ->
  let rs := before ++ CmResourceTypeMemory Start DIO_BAR_SIZE :: after in
  let base := MmMapIoSpaceEx Start DIO_BAR_SIZE in
  let failed := set_MappedLength (set_DevBase (ctx w) nullptr) 0 in
  let acquired :=
    set_SavedOutputLineState
      (set_OutputLineMask
         (set_MappedLength (set_DevBase (ctx w) base) DIO_BAR_SIZE) 0) 0 in
  OsrDioEvtDevicePrepareHardware MmMapIoSpaceEx rs w =
    (if base =? nullptr
     then Ok STATUS_PNP_DRIVER_CONFIGURATION_NOT_FOUND
             (mkWorld (hw w) failed (pending w) (trace w))
     else Ok STATUS_SUCCESS
             (mkWorld (apply_writes (hw w) device_reset_writes)
                      acquired (pending w)
                      (trace w ++ write_events device_reset_writes)))
  /\ (DevBase failed = nullptr
      /\ MappedLength failed = 0
      /\ OutputLineMask failed = OutputLineMask (ctx w)
      /\ SavedOutputLineState failed = SavedOutputLineState (ctx w)
      /\ LatchedInputLineState failed = LatchedInputLineState (ctx w))
  /\ (DevBase acquired = base
      /\ MappedLength acquired = DIO_BAR_SIZE
      /\ OutputLineMask acquired = 0
      /\ SavedOutputLineState acquired = 0
      /\ LatchedInputLineState acquired = LatchedInputLineState (ctx w)).
Proof.
  intros Hafter Hint rs base failed acquired.
  split; [|repeat split].
  subst failed acquired.
  rewrite prepare_hardware_run. cbv zeta.
  assert (Hfound : existsb is_interrupt_resource rs = true).
  { subst rs. rewrite existsb_app in *. cbn [existsb is_interrupt_resource].
    exact Hint. }
  rewrite Hfound. cbn [negb]. rewrite orb_false_r.
  subst rs. rewrite fold_left_app. cbn [fold_left].
  rewrite resource_step_no_bar by exact Hafter.
  set (c := fold_left _ before (ctx w)).
  assert (Hc : c = set_MappedLength (set_DevBase (ctx w) (DevBase c))
                                    (MappedLength c))
    by apply resource_step_fields.
  cbn [resource_step]. rewrite Z.eqb_refl. fold base.
  rewrite Hc.
  destruct (Z.eqb_spec base nullptr) as [Hnull|Hmap].
  - rewrite Hnull. reflexivity.
  - cbn [DevBase set_MappedLength set_DevBase].
    apply Z.eqb_neq in Hmap. rewrite Hmap. reflexivity.
Qed.

(** X20: releasing the hardware always succeeds, touches no register and
    leaves [DevBase] null; when the registers were mapped it also zeroes
    [MappedLength].  Nothing else in the device context changes, the
    pending queue is kept, and releasing twice is the same as releasing
    once. *)
Theorem release_hardware_unmaps (w : @World HW) :
  let c' := if DevBase (ctx w) =? nullptr then ctx w
            else set_MappedLength (set_DevBase (ctx w) nullptr) 0 in
  let w' := mkWorld (hw w) c' (pending w) (trace w) in
  OsrDioEvtDeviceReleaseHardware w = Ok STATUS_SUCCESS w'
  /\ DevBase (ctx w') = nullptr
  /\ OsrDioEvtDeviceReleaseHardware w' = Ok STATUS_SUCCESS w'
  /\ MappedLength (ctx w')
     = (if DevBase (ctx w) =? nullptr then MappedLength (ctx w) else 0)
  /\ OutputLineMask (ctx w') = OutputLineMask (ctx w)
  /\ SavedOutputLineState (ctx w') = SavedOutputLineState (ctx w)
  /\ LatchedInputLineState (ctx w') = LatchedInputLineState (ctx w).
Proof.
  intros c' w'. subst w' c'.
  unfold OsrDioEvtDeviceReleaseHardware, bind, getContext, putContext, ret.
  cbn [hw ctx pending trace].
  destruct (Z.eqb_spec (DevBase (ctx w)) nullptr) as [Hnull|Hmap];
    cbn [negb hw ctx pending trace DevBase set_MappedLength set_DevBase].
  - rewrite Hnull. cbn. repeat split. now destruct w.
  - repeat split.
Qed.

(** ** Power transitions *)

(** X21: first power-up de-asserts every output.  When acquisition
    succeeds (the last BAR-sized memory resource maps and an interrupt
    resource is present), the power-up that follows writes zero to the
    output register, whatever [SavedOutputLineState] held before. *)
Theorem first_power_up_deasserts_outputs (MmMapIoSpaceEx : Z -> ULONG -> Z)
    (before after : list CM_PARTIAL_RESOURCE_DESCRIPTOR) (Start : Z)
    (w : World) :
  existsb is_bar_resource after = false ->
  existsb is_interrupt_resource (before ++ after) = true ->
  MmMapIoSpaceEx Start DIO_BAR_SIZE <> nullptr ->
  let rs := before ++ CmResourceTypeMemory Start DIO_BAR_SIZE :: after in
  exists w',
    bind (OsrDioEvtDevicePrepareHardware MmMapIoSpaceEx rs)
         (fun _ => OsrDioEvtDeviceD0Entry) w = Ok STATUS_SUCCESS w'
    /\ trace w' = trace w ++ write_events device_reset_writes
                          ++ [RegWrite Static_Digital_Output_Register 0]
    /\ last_written (reg_offset Static_Digital_Output_Register) (trace w')
       = Some 0.
Proof.
  intros Hafter Hint Hmapped rs.
  assert (Hfound : existsb is_interrupt_resource rs = true).
  { subst rs. rewrite existsb_app in *. cbn [existsb is_interrupt_resource].
    exact Hint. }
  assert (Hbase : DevBase (fold_left (resource_step MmMapIoSpaceEx) rs (ctx w))
                  = MmMapIoSpaceEx Start DIO_BAR_SIZE).
  { subst rs. rewrite fold_left_app. cbn [fold_left].
    rewrite resource_step_no_bar by exact Hafter.
    cbn [resource_step]. now rewrite Z.eqb_refl. }
  erewrite bind_Ok.
  2:{ rewrite prepare_hardware_run. cbv zeta.
      rewrite Hfound, Hbase.
      apply Z.eqb_neq in Hmapped. rewrite Hmapped. reflexivity. }
  unfold OsrDioEvtDeviceD0Entry.
  run_step.
  erewrite bind_Ok by (apply run_write; cbn; rewrite Hbase; exact Hmapped).
  eexists. split; [reflexivity|].
  cbn [trace ctx SavedOutputLineState set_SavedOutputLineState].
  split; [now rewrite <- app_assoc|].
  rewrite last_written_app. reflexivity.
Qed.

(** X22: power-down saves output lines only.  On a mapped device the
    power-down callback reads the input register once and writes no
    register; in the resulting device context [SavedOutputLineState] holds
    the value read masked with [OutputLineMask] and every other field holds
    what it held.  No line that is not configured as an output is set in
    [SavedOutputLineState], and with a 32-bit mask the saved state is a
    value between zero and the mask. *)
Theorem power_down_saves_only_outputs (w : World) :
  DevBase (ctx w) <> nullptr ->
  let lines := read_value (hw w) Static_Digital_Input_Register in
  let events := [RegRead Static_Digital_Input_Register lines] in
  exists w',
    OsrDioEvtDeviceD0Exit w = Ok STATUS_SUCCESS w'
    /\ hw w' = read_next (hw w) Static_Digital_Input_Register
    /\ pending w' = pending w
    /\ trace w' = trace w ++ events
    /\ writes_of events = []
    /\ SavedOutputLineState (ctx w') = Z.land lines (OutputLineMask (ctx w))
    /\ OutputLineMask (ctx w') = OutputLineMask (ctx w)
    /\ LatchedInputLineState (ctx w') = LatchedInputLineState (ctx w)
    /\ DevBase (ctx w') = DevBase (ctx w)
    /\ MappedLength (ctx w') = MappedLength (ctx w)
    /\ WdfDevice (ctx w') = WdfDevice (ctx w)
    /\ WdfInterrupt (ctx w') = WdfInterrupt (ctx w)
    /\ PendingQueue (ctx w') = PendingQueue (ctx w)
    /\ (forall i, Z.testbit (OutputLineMask (ctx w')) i = false ->
                  Z.testbit (SavedOutputLineState (ctx w')) i = false)
    /\ (is_ULONG (OutputLineMask (ctx w')) ->
        0 <= SavedOutputLineState (ctx w') <= OutputLineMask (ctx w')).
Proof.
  intros Hmap lines events.
  eexists. split.
  { unfold OsrDioEvtDeviceD0Exit. do 3 run_step. reflexivity. }
  cbn [hw ctx pending trace].
  assert (Hsaved : SavedOutputLineState
                     (set_SavedOutputLineState (ctx w)
                        (Z.land lines (OutputLineMask (ctx w))))
                   = Z.land lines (OutputLineMask (ctx w))) by reflexivity.
  assert (Hmask : OutputLineMask
                    (set_SavedOutputLineState (ctx w)
                       (Z.land lines (OutputLineMask (ctx w))))
                  = OutputLineMask (ctx w)) by reflexivity.
  fold lines. rewrite Hsaved, Hmask.
  repeat split.
  - intros i. apply land_mask_bits.
  - apply Z.land_nonneg. right. apply H.
  - apply land_le_r; [|apply H].
    unfold lines, read_value, to_ULONG.
    apply Z.mod_pos_bound. reflexivity.
Qed.

End MoreProperties.

(** ** The register map *)

(** X23: the layout of [DIO_REGISTERS].  Every register field is aligned
    to four bytes and lies inside the BAR
    ([REGSTRUCT_START(DIO_REGISTERS, DIO_BAR_SIZE)]).  A field sits at the
    offset the header's table gives for it, except
    [DI_Interrupt_Status_Register]: its [ULONG] follows 0x2007E bytes of
    padding in a structure that is not packed, so it sits at 0x20080.  Two
    names share an address only in the three read-side/write-side pairs
    the header declares. *)
Theorem registers_within_bar (r1 r2 : DIO_REGISTERS) :
  0 <= reg_offset r1
  /\ reg_offset r1 mod alignof_ULONG = 0
  /\ reg_offset r1 + 4 <= DIO_BAR_SIZE
  /\ declared_offset r1 <= reg_offset r1 < declared_offset r1 + alignof_ULONG
  /\ (reg_offset r1 <> declared_offset r1 <->
      r1 = DI_Interrupt_Status_Register)
  /\ reg_offset DI_Interrupt_Status_Register = 0x20080
  /\ (reg_offset r1 = reg_offset r2 ->
      r1 = r2
      \/ In (reg_offset r1)
            [reg_offset ChangeDetectStatusRegister;
             reg_offset DI_ChangeDetectLatched_Register;
             reg_offset Joint_Reset_Register]).
Proof.
  split. { destruct r1; vm_compute; discriminate. }
  split. { destruct r1; reflexivity. }
  split. { destruct r1; vm_compute; discriminate. }
  split. { destruct r1; vm_compute; split; (discriminate || reflexivity). }
  split.
  { split.
    - destruct r1; intros H; try reflexivity;
        exfalso; apply H; reflexivity.
    - intros ->. vm_compute. discriminate. }
  split. { reflexivity. }
  destruct r1, r2; intros H;
    first [now left | discriminate H | right; cbn; tauto].
Qed.

(** ** The further properties at concrete inputs *)

Lemma mapped_context_mapped (mask : ULONG) (b : SimBank)
    (q : list WDFREQUEST) :
  DevBase (ctx (sim_world b (mapped_context mask) q)) <> nullptr.
Proof. vm_compute. discriminate. Defined.

(** Status and error both set: both are acknowledged, nothing is
    delivered. *)
Lemma isr_error_suppresses_delivery_witness :
  OsrDioEvtInterruptIsr
    (sim_world (sim_signalling 3) (mapped_context 0) [request_out 7]) =
    Ok true
       (mkWorld (mkSim 0 0 0 0 0 0x1234) (mapped_context 0) [request_out 7]
                [RegRead Volatile_Interrupt_Status_Register 0x80000000;
                 RegRead ChangeDetectStatusRegister 3;
                 RegWrite ChangeDetectIRQ_Register 1;
                 RegWrite ChangeDetectIRQ_Register 2]).
Proof.
  exact (proj1 (isr_error_suppresses_delivery
                  (sim_world (sim_signalling 3) (mapped_context 0)
                             [request_out 7])
                  (mapped_context_mapped _ _ _) eq_refl eq_refl)).
Defined.

Lemma isr_nothing_pending_witness :
  OsrDioEvtInterruptIsr
    (sim_world (sim_signalling 0) (mapped_context 0) [request_out 7]) =
    Ok true
       (mkWorld (mkSim 0 0 0 0 0 0x1234) (mapped_context 0) [request_out 7]
                [RegRead Volatile_Interrupt_Status_Register 0x80000000;
                 RegRead ChangeDetectStatusRegister 0]).
Proof.
  exact (isr_nothing_pending
           (sim_world (sim_signalling 0) (mapped_context 0) [request_out 7])
           (mapped_context_mapped _ _ _) eq_refl eq_refl eq_refl).
Defined.

Lemma isr_frame_witness :
  exists w',
    OsrDioEvtInterruptIsr
      (sim_world (sim_signalling 3) (mapped_context 0x0F) [request_out 7])
    = Ok true w'
    /\ pending w' = [request_out 7].
Proof.
  destruct (isr_frame (sim_world (sim_signalling 3) (mapped_context 0x0F)
                                 [request_out 7])
                      (mapped_context_mapped _ _ _))
    as (w' & events & Hrun & _ & Hq & _).
  exists w'. split; [exact Hrun | exact Hq].
Defined.

Lemma ioctl_unknown_code_witness :
  let w := sim_world sim_idle (unmapped_context 0) [] in
  completes_with
    (OsrDioEvtIoDeviceControl (request_bare 9) 0 0 0x222000 w)
    w (request_bare 9) STATUS_INVALID_PARAMETER 0.
Proof.
  intro w.
  assert (H1 : 0x222000 <> IOCTL_OSRDIO_READ) by (vm_compute; discriminate).
  assert (H2 : 0x222000 <> IOCTL_OSRDIO_WRITE) by (vm_compute; discriminate).
  assert (H3 : 0x222000 <> IOCTL_OSRDIO_SET_OUTPUTS)
    by (vm_compute; discriminate).
  assert (H4 : 0x222000 <> IOCTL_OSRDIO_WAITFOR_CHANGE)
    by (vm_compute; discriminate).
  exact (proj1 (ioctl_unknown_code w (request_bare 9) 0 0 0x222000
                                   H1 H2 H3 H4)).
Defined.

Lemma write_outputs_short_input_witness :
  let w := sim_world sim_idle (unmapped_context 0x0F) [] in
  completes_with
    (OsrDioEvtIoDeviceControl (request_bare 9) 0 0 IOCTL_OSRDIO_WRITE w)
    w (request_bare 9) STATUS_BUFFER_TOO_SMALL 0.
Proof.
  intro w.
  assert (Hmask : OutputLineMask (ctx w) <> 0) by (vm_compute; discriminate).
  assert (Hlen : RequestInputLength (request_bare 9)
                 < sizeof_OSRDIO_WRITE_DATA) by reflexivity.
  exact (write_outputs_short_input w (request_bare 9) 0 0 Hmask Hlen).
Defined.

Lemma set_outputs_short_input_witness :
  let w := sim_world sim_idle (unmapped_context 0x0F) [] in
  completes_with
    (OsrDioEvtIoDeviceControl (request_bare 9) 0 0 IOCTL_OSRDIO_SET_OUTPUTS w)
    w (request_bare 9) STATUS_BUFFER_TOO_SMALL 0.
Proof.
  intro w.
  assert (Hlen : RequestInputLength (request_bare 9)
                 < sizeof_OSRDIO_SET_OUTPUTS_DATA) by reflexivity.
  exact (set_outputs_short_input w (request_bare 9) 0 0 Hlen).
Defined.

Lemma ioctl_completes_or_queues_witness :
  exists w',
    OsrDioEvtIoDeviceControl (request_out 9) 4 0 IOCTL_OSRDIO_WAITFOR_CHANGE
                             (sim_world sim_idle (mapped_context 0x0F) [])
    = Ok tt w'.
Proof.
  destruct (ioctl_completes_or_queues
              (sim_world sim_idle (mapped_context 0x0F) [])
              (request_out 9) 4 0 IOCTL_OSRDIO_WAITFOR_CHANGE
              (mapped_context_mapped _ _ _))
    as (w' & events & Hrun & _).
  exists w'. exact Hrun.
Defined.

Lemma ioctl_frame_witness :
  exists w',
    OsrDioEvtIoDeviceControl (request_in 9 0xA5) 0 4 IOCTL_OSRDIO_WRITE
                             (sim_world sim_idle (mapped_context 0x0F) [])
    = Ok tt w'
    /\ ctx w' = mapped_context 0x0F.
Proof.
  destruct (ioctl_frame (sim_world sim_idle (mapped_context 0x0F) [])
                        (request_in 9 0xA5) 0 4 IOCTL_OSRDIO_WRITE
                        (mapped_context_mapped _ _ _))
    as (w' & events & Hrun & _ & _ & Hctx & _).
  exists w'. split; [exact Hrun|].
  apply Hctx. vm_compute. discriminate.
Defined.

Lemma set_outputs_then_write_witness :
  bind (OsrDioEvtIoDeviceControl (request_in 1 0x0F) 0 4
                                 IOCTL_OSRDIO_SET_OUTPUTS)
       (fun _ => OsrDioEvtIoDeviceControl (request_in 2 0xA5) 0 4
                                          IOCTL_OSRDIO_WRITE)
       (sim_world sim_idle (mapped_context 0xF0) []) =
    Ok tt (mkWorld (mkSim 0 0x05 0x0F 0 0 0) (mapped_context 0x0F) []
                   [RegWrite DI_FilterRegister_Port0and1 0xFFFFFFFF;
                    RegWrite DI_FilterRegister_Port2and3 0xFFFFFFFF;
                    RegWrite DIO_Direction_Register 0x0F;
                    RegWrite DI_ChangeIrqRE_Register 0xFFFFFFF0;
                    RegWrite DI_ChangeIrqFE_Register 0xFFFFFFF0;
                    Completed (request_in 1 0x0F) STATUS_SUCCESS 4;
                    RegWrite Static_Digital_Output_Register 0x05;
                    Completed (request_in 2 0xA5) STATUS_SUCCESS 4]).
Proof.
  assert (Hlen : 4 <= 4) by (vm_compute; discriminate).
  exact (set_outputs_then_write
           (sim_world sim_idle (mapped_context 0xF0) [])
           (request_in 1 0x0F) (request_in 2 0xA5) 0x0F 0xA5 0 4 0 4
           (mapped_context_mapped _ _ _) eq_refl Hlen eq_refl Hlen).
Defined.

Lemma set_outputs_then_wait_witness :
  bind (OsrDioEvtIoDeviceControl (request_in 1 0xFFFFFFFF) 0 4
                                 IOCTL_OSRDIO_SET_OUTPUTS)
       (fun _ => OsrDioEvtIoDeviceControl (request_out 2) 4 0
                                          IOCTL_OSRDIO_WAITFOR_CHANGE)
       (sim_world sim_idle (mapped_context 0) []) =
    Ok tt (mkWorld (mkSim 0 0 0xFFFFFFFF 0 0 0) (mapped_context 0xFFFFFFFF) []
                   [RegWrite DI_FilterRegister_Port0and1 0xFFFFFFFF;
                    RegWrite DI_FilterRegister_Port2and3 0xFFFFFFFF;
                    RegWrite DIO_Direction_Register 0xFFFFFFFF;
                    RegWrite DI_ChangeIrqRE_Register 0;
                    RegWrite DI_ChangeIrqFE_Register 0;
                    Completed (request_in 1 0xFFFFFFFF) STATUS_SUCCESS 4;
                    Completed (request_out 2) STATUS_NONE_MAPPED 0]).
Proof.
  assert (Hlen : 4 <= 4) by (vm_compute; discriminate).
  assert (Hrange : is_ULONG 0xFFFFFFFF)
    by (unfold is_ULONG, ULONG_MAX; lia).
  exact (set_outputs_then_wait
           (sim_world sim_idle (mapped_context 0) [])
           (request_in 1 0xFFFFFFFF) (request_out 2) 0xFFFFFFFF 0 4 4 0
           (mapped_context_mapped _ _ _) Hrange eq_refl Hlen Hlen).
Defined.

Lemma dpcs_serve_in_arrival_order_witness :
  let c := set_LatchedInputLineState (mapped_context 0) 0xCAFEBABE in
  run_dpcs 2 (sim_world sim_idle c [request_out 7; request_out 8;
                                    request_out 9]) =
    Ok tt (mkWorld sim_idle c [request_out 9]
                   [OutputStore (request_out 7) 0xCAFEBABE;
                    Completed (request_out 7) STATUS_SUCCESS 4;
                    OutputStore (request_out 8) 0xCAFEBABE;
                    Completed (request_out 8) STATUS_SUCCESS 4]).
Proof.
  intro c.
  assert (Hbuf : Forall (fun r => sizeof_OSRDIO_CHANGE_DATA
                                  <= RequestOutputLength r)
                        [request_out 7; request_out 8; request_out 9])
    by (repeat constructor; vm_compute; discriminate).
  exact (dpcs_serve_in_arrival_order
           2 (sim_world sim_idle c [request_out 7; request_out 8;
                                    request_out 9]) Hbuf).
Defined.

Lemma wait_then_dpc_serves_oldest_witness :
  bind (OsrDioEvtIoDeviceControl (request_out 9) 4 0
                                 IOCTL_OSRDIO_WAITFOR_CHANGE)
       (fun _ => OsrDioEvtInterruptDpc)
       (sim_world sim_idle (mapped_context 0x0F) [request_out 7]) =
    Ok tt (mkWorld sim_idle (mapped_context 0x0F) [request_out 9]
                   [OutputStore (request_out 7) 0;
                    Completed (request_out 7) STATUS_SUCCESS 4]).
Proof.
  assert (Hrange : is_ULONG 0x0F) by (unfold is_ULONG, ULONG_MAX; lia).
  assert (Hmask : 0x0F <> 0xFFFFFFFF) by discriminate.
  assert (Hlen : 4 <= 4) by (vm_compute; discriminate).
  assert (Hbuf : Forall (fun r => sizeof_OSRDIO_CHANGE_DATA
                                  <= RequestOutputLength r)
                        ([request_out 7] ++ [request_out 9]))
    by (repeat constructor; vm_compute; discriminate).
  exact (wait_then_dpc_serves_oldest
           (sim_world sim_idle (mapped_context 0x0F) [request_out 7])
           (request_out 9) 4 0 Hrange Hmask Hlen Hbuf).
Defined.

Lemma isr_then_dpc_delivers_latched_witness :
  bind OsrDioEvtInterruptIsr (fun _ => OsrDioEvtInterruptDpc)
       (sim_world sim_changed (mapped_context 0)
                  [request_out 7; request_out 8]) =
    Ok tt (mkWorld (mkSim 0xCAFEBABE 0 0 0 0 0xCAFEBABE)
                   (set_LatchedInputLineState (mapped_context 0) 0xCAFEBABE)
                   [request_out 8]
                   [RegRead Volatile_Interrupt_Status_Register 0x80000000;
                    RegRead ChangeDetectStatusRegister 1;
                    RegRead DI_ChangeDetectLatched_Register 0xCAFEBABE;
                    DpcQueued;
                    RegWrite ChangeDetectIRQ_Register 1;
                    OutputStore (request_out 7) 0xCAFEBABE;
                    Completed (request_out 7) STATUS_SUCCESS 4]).
Proof.
  assert (Hbuf : sizeof_OSRDIO_CHANGE_DATA
                 <= RequestOutputLength (request_out 7))
    by (vm_compute; discriminate).
  exact (isr_then_dpc_delivers_latched
           (sim_world sim_changed (mapped_context 0)
                      [request_out 7; request_out 8])
           (request_out 7) [request_out 8]
           (mapped_context_mapped _ _ _) eq_refl Hbuf
           eq_refl eq_refl eq_refl).
Defined.


Lemma interrupt_disable_leaves_disabled_witness :
  exists w',
    OsrDioEvtInterruptDisable
      (sim_world sim_changed (mapped_context 0x0F) [request_out 7])
    = Ok STATUS_SUCCESS w'
    /\ pending w' = [request_out 7].
Proof.
  destruct (interrupt_disable_leaves_disabled
              (sim_world sim_changed (mapped_context 0x0F) [request_out 7])
              (mapped_context_mapped _ _ _))
    as (w' & later & Hrun & _ & Hq & _).
  exists w'. split; [exact Hrun | exact Hq].
Defined.

Lemma interrupt_enable_sequence_witness :
  last_written (reg_offset ChangeDetectIRQ_Register)
               (write_events
                  (interrupt_reset_writes
                   ++ [(GlobalInterruptEnable_Register, DI_Interrupt_Enable);
                       (ChangeDetectIRQ_Register,
                        Z.lor ChangeDetectErrorIRQ_Enable
                              ChangeDetectIRQ_Enable);
                       (Interrupt_Mask_Register,
                        Z.lor Set_CPU_Int Set_STC3_Int);
                       (DI_FilterRegister_Port0and1, Filter_Large_All_Lines);
                       (DI_FilterRegister_Port2and3, Filter_Large_All_Lines);
                       (DIO_Direction_Register, 0x0F);
                       (DI_ChangeIrqRE_Register, ulong_not 0x0F);
                       (DI_ChangeIrqFE_Register, ulong_not 0x0F)]))
  = Some 0xA0.
Proof.
  exact (proj1 (proj2 (interrupt_enable_sequence
                         (sim_world sim_idle (mapped_context 0x0F) [])
                         (mapped_context_mapped _ _ _)))).
Defined.

Lemma prepare_hardware_without_bar_witness :
  let w := sim_world sim_idle (unmapped_context 0x0F) [] in
  OsrDioEvtDevicePrepareHardware
    map_ok [CmResourceTypeMemory 0xF7100000 4096; CmResourceTypeInterrupt] w
  = Ok STATUS_PNP_DRIVER_CONFIGURATION_NOT_FOUND w.
Proof.
  intro w.
  exact (prepare_hardware_without_bar
           map_ok
           [CmResourceTypeMemory 0xF7100000 4096; CmResourceTypeInterrupt]
           w eq_refl eq_refl).
Defined.

Lemma prepare_hardware_last_bar_decides_witness :
  OsrDioEvtDevicePrepareHardware
    map_ok sample_resources (sim_world sim_idle (unmapped_context 0x0F) []) =
    Ok STATUS_SUCCESS
       (mkWorld sim_idle (mapped_context 0) []
                (write_events device_reset_writes))
  /\ OsrDioEvtDevicePrepareHardware
       map_fails sample_resources
       (sim_world sim_idle (unmapped_context 0x0F) []) =
     Ok STATUS_PNP_DRIVER_CONFIGURATION_NOT_FOUND
        (sim_world sim_idle (unmapped_context 0x0F) []).
Proof.
  split.
  - exact (proj1 (prepare_hardware_last_bar_decides
                    map_ok [CmResourceTypeOther 129]
                    [CmResourceTypeMemory 0xF7100000 4096;
                     CmResourceTypeInterrupt]
                    0xF7000000
                    (sim_world sim_idle (unmapped_context 0x0F) [])
                    eq_refl eq_refl)).
  - exact (proj1 (prepare_hardware_last_bar_decides
                    map_fails [CmResourceTypeOther 129]
                    [CmResourceTypeMemory 0xF7100000 4096;
                     CmResourceTypeInterrupt]
                    0xF7000000
                    (sim_world sim_idle (unmapped_context 0x0F) [])
                    eq_refl eq_refl)).
Defined.

Lemma first_power_up_deasserts_outputs_witness :
  exists w',
    bind (OsrDioEvtDevicePrepareHardware map_ok sample_resources)
         (fun _ => OsrDioEvtDeviceD0Entry)
         (sim_world (mkSim 0 0xFF 0xFF 0 0 0)
                    (mkContext 1 2 nullptr 0 3 0xFF 0xAA 0) [])
    = Ok STATUS_SUCCESS w'
    /\ last_written (reg_offset Static_Digital_Output_Register) (trace w')
       = Some 0.
Proof.
  assert (Hmapped : map_ok 0xF7000000 DIO_BAR_SIZE <> nullptr)
    by (vm_compute; discriminate).
  destruct (first_power_up_deasserts_outputs
              map_ok [CmResourceTypeOther 129]
              [CmResourceTypeMemory 0xF7100000 4096; CmResourceTypeInterrupt]
              0xF7000000
              (sim_world (mkSim 0 0xFF 0xFF 0 0 0)
                         (mkContext 1 2 nullptr 0 3 0xFF 0xAA 0) [])
              eq_refl eq_refl Hmapped)
    as (w' & Hrun & _ & Hlast).
  exists w'. split; [exact Hrun | exact Hlast].
Defined.

Lemma power_down_saves_only_outputs_witness :
  let b := mkSim 0xA0 0x05 0x0F 0 0 0 in
  exists w',
    OsrDioEvtDeviceD0Exit (sim_world b (mapped_context 0x0F) []) =
      Ok STATUS_SUCCESS w'
    /\ SavedOutputLineState (ctx w') = 0x05
    /\ trace w' = [RegRead Static_Digital_Input_Register 0xA5].
Proof.
  intro b.
  destruct (power_down_saves_only_outputs
              (sim_world b (mapped_context 0x0F) [])
              (mapped_context_mapped _ _ _))
    as (w' & Hrun & _ & _ & Htrace & _ & Hsaved & _).
  exists w'. split; [exact Hrun|]. split; [exact Hsaved | exact Htrace].
Defined.

Lemma registers_within_bar_witness :
  ChangeDetectStatusRegister = DI_ChangeIrqRE_Register
  \/ In (reg_offset ChangeDetectStatusRegister)
        [reg_offset ChangeDetectStatusRegister;
         reg_offset DI_ChangeDetectLatched_Register;
         reg_offset Joint_Reset_Register].
Proof.
  destruct (registers_within_bar ChangeDetectStatusRegister
                                 DI_ChangeIrqRE_Register)
    as (_ & _ & _ & _ & _ & _ & Hshared).
  exact (Hshared eq_refl).
Defined.
